(** * Corpus preparation pipeline and streaming metric aggregator

    A shallow embedding of [nmt/preprocess.py] and [nmt/utils/stats.py].
    Python exceptions are values of [exn]; a call either returns or
    raises, and mutable objects that outlive an exception (list buffers,
    the file system) are threaded explicitly so that their contents at the
    point of failure stay observable. *)

From stdpp Require Import gmap strings list fin_maps sorting.
From Stdlib Require Import ZArith Lia.

Local Open Scope string_scope.
Local Open Scope list_scope.
Local Open Scope stdpp_scope.
Local Open Scope Z_scope.

(** ** Exceptions and results *)

Inductive exn : Type :=
  | ValueError
  | ZeroDivisionError
  | AssertionError
  | IndexError
  | KeyError (key : string).

Inductive result (A : Type) : Type :=
  | Ok (a : A)
  | Raise (e : exn).
Arguments Ok {A} a.
Arguments Raise {A} e.

Definition is_ok {A} (r : result A) : bool :=
  match r with Ok _ => true | Raise _ => false end.

Definition rbind {A B} (r : result A) (k : A -> result B) : result B :=
  match r with
  | Ok a => k a
  | Raise e => Raise e
  end.

(** ** [nmt/utils/stats.py] *)

Module Stats.

(** Floating point numbers and the scikit-learn metrics are external:
    the model fixes nothing about them beyond their signatures. *)
Class Numeric := {
  float : Type;
  float_zero : float;                      (* the literal 0.0 *)
  float_half : float;                      (* the literal 0.5 *)
  float_add : float -> float -> float;     (* x + y *)
  float_div_int : float -> Z -> float;     (* x / n for n <> 0 *)
  accuracy_score : list Z -> list Z -> result float;
  precision_recall_fscore_support :
    list Z -> list Z -> float -> string -> result (float * float * float);
}.

(** One-dimensional integer arrays; [ravel] is the identity on them.
    A torch [Tensor] is converted with [.cpu().detach().numpy()]. *)
Inductive array : Type :=
  | NdArray (data : list Z)
  | Tensor (data : list Z).

Definition to_numpy (a : array) : list Z :=
  match a with
  | NdArray d => d
  | Tensor d => d
  end.

(** List objects live in a heap, so that two [Stats] objects can hold
    the same list.  The two default arguments [pred = []] and
    [labels = []] of [__init__] are evaluated once, when the class
    statement runs: they are the objects at [default_pred] and
    [default_labels] of [class_heap]. *)
Definition loc := nat.
Definition default_pred : loc := 0%nat.
Definition default_labels : loc := 1%nat.
Definition class_heap : gmap loc (list (list Z)) :=
  <[default_labels := []]> (<[default_pred := []]> ∅).

Section WithNumeric.
Context `{Numeric}.

Record Stats : Type := {
  num_batchs : Z;
  loss : float;
  pred : loc;
  labels : loc;
  f_score_beta : float;
  average : string;
  ignore_padding : bool;
  pad_token_id : option Z;
  num_matches : Z;
  num_totals : Z;
}.

(** [Stats.__init__]: [pred] and [labels] are [None] when the caller
    omits them, and the shared defaults are then bound. *)
Definition __init__ (num_batchs : Z) (loss : float)
    (pred labels : option loc) (f_score_beta : float) (average : string)
    (pad_token_id : option Z) (ignore_padding : bool) : result Stats :=
  if ignore_padding && negb (bool_decide (is_Some pad_token_id))
  then Raise ValueError
  else Ok {| num_batchs := num_batchs;
             loss := loss;
             pred := default default_pred pred;
             labels := default default_labels labels;
             f_score_beta := f_score_beta;
             average := average;
             ignore_padding := ignore_padding;
             pad_token_id := pad_token_id;
             num_matches := 0;
             num_totals := 0 |}.

(** [Stats()] with every argument left at its default. *)
Definition default_Stats : result Stats :=
  __init__ 0 float_zero None None float_half "weighted" None false.

(** [x != pad_token_id]; comparing an integer with [None] is [True]. *)
Definition ne_pad (pad : option Z) (x : Z) : bool :=
  match pad with
  | Some p => negb (x =? p)
  | None => true
  end.

(** Broadcasting of two one-dimensional arrays in an elementwise
    operation: equal lengths pair up, a length-one array is repeated,
    anything else is an error. *)
Definition broadcast (a b : list Z) : option (list (Z * Z)) :=
  if (length a =? length b)%nat then Some (zip a b)
  else match a, b with
       | [x], _ => Some ((λ y, (x, y)) <$> b)
       | _, [y] => Some ((λ x, (x, y)) <$> a)
       | _, _ => None
       end.

Definition count_true (l : list bool) : Z :=
  Z.of_nat (length (filter (λ b, b = true) l)).

(** [a[mask]] for a boolean [mask]: the lengths have to agree. *)
Definition bool_index (a : list Z) (mask : list bool) : option (list Z) :=
  if (length a =? length mask)%nat
  then Some (fst <$> filter (λ p, p.2 = true) (zip a mask))
  else None.

Definition set_counters (s : Stats) (l : float) (n m t : Z) : Stats :=
  {| num_batchs := n; loss := l; pred := pred s; labels := labels s;
     f_score_beta := f_score_beta s; average := average s;
     ignore_padding := ignore_padding s; pad_token_id := pad_token_id s;
     num_matches := m; num_totals := t |}.

Definition append_buf (l : loc) (x : list Z)
    (h : gmap loc (list (list Z))) : gmap loc (list (list Z)) :=
  alter (λ b, b ++ [x]) l h.

(** [Stats.update_step].  The object and the heap are returned in the
    state they have when the method returns or raises. *)
Definition update_step (self : Stats) (h : gmap loc (list (list Z)))
    (loss_ : float) (y_pred y_true : array)
    : Stats * gmap loc (list (list Z)) * option exn :=
  let l := float_add (loss self) loss_ in
  let n := num_batchs self + 1 in
  let y_pred := to_numpy y_pred in
  let y_true := to_numpy y_true in
  let pad := pad_token_id self in
  match broadcast y_pred y_true with
  | None => (set_counters self l n (num_matches self) (num_totals self),
             h, Some ValueError)
  | Some pairs =>
    let m := num_matches self +
             count_true ((λ p, (p.1 =? p.2) && ne_pad pad p.1) <$> pairs) in
    let t := num_totals self + count_true (ne_pad pad <$> y_true) in
    let self := set_counters self l n m t in
    if ignore_padding self then
      let mask := ne_pad pad <$> y_true in
      match bool_index y_pred mask, bool_index y_true mask with
      | Some y_pred, Some y_true =>
        (* the assertion on line 62 holds: both were cut by one mask *)
        (self, append_buf (labels self) y_true
                 (append_buf (pred self) y_pred h), None)
      | _, _ => (self, h, Some IndexError)
      end
    else if (length y_pred =? length y_true)%nat then
      (self, append_buf (labels self) y_true
               (append_buf (pred self) y_pred h), None)
    else (self, h, Some AssertionError)
  end.

(** [np.concatenate]: an empty list of arrays is an error. *)
Definition concatenate (bufs : list (list Z)) : result (list Z) :=
  match bufs with
  | [] => Raise ValueError
  | _ => Ok (concat bufs)
  end.

Record Metrics : Type := {
  m_loss : float;
  m_acc : float;
  m_precision : float;
  m_recall : float;
  m_f_beta : float;
}.

(** The body of [compute] once [self.pred] and [self.labels] have been
    read from the heap. *)
Definition compute_on (self : Stats) (preds labs : list (list Z))
    : result Metrics :=
  rbind (concatenate preds) (λ y_pred,
  rbind (concatenate labs) (λ y_true,
  if num_batchs self =? 0 then Raise ZeroDivisionError else
  let loss_ := float_div_int (loss self) (num_batchs self) in
  rbind (accuracy_score y_true y_pred) (λ acc,
  rbind (precision_recall_fscore_support y_true y_pred
           (f_score_beta self) (average self)) (λ prf,
  (* the last print evaluates num_matches / num_totals *)
  if num_totals self =? 0 then Raise ZeroDivisionError else
  Ok {| m_loss := loss_; m_acc := acc; m_precision := prf.1.1;
        m_recall := prf.1.2; m_f_beta := prf.2 |})))).

(** [Stats.compute]. *)
Definition compute (self : Stats) (h : gmap loc (list (list Z)))
    : result Metrics :=
  compute_on self (default [] (h !! pred self))
                  (default [] (h !! labels self)).

(** [n] successive calls of [update_step] on one object. *)
Fixpoint update_steps (self : Stats) (h : gmap loc (list (list Z)))
    (calls : list (float * array * array))
    : Stats * gmap loc (list (list Z)) :=
  match calls with
  | [] => (self, h)
  | (l, p, t) :: calls =>
    let '(self, h, _) := update_step self h l p t in
    update_steps self h calls
  end.

(** One call [writer.add_scalars(main_tag, tag_scalar_dict, global_step)]
    of a tensorboard [SummaryWriter]; the writer is the sequence of the
    calls it received, oldest first. *)
Record add_scalars_call : Type := {
  main_tag : string;
  tag_scalar_dict : list (string * float);
  global_step : Z;
}.

(** [scores.items()], in the order of the dictionary [compute] returns. *)
Definition items (scores : Metrics) : list (string * float) :=
  [("loss", m_loss scores); ("acc", m_acc scores);
   ("precision", m_precision scores); ("recall", m_recall scores);
   ("f_beta", m_f_beta scores)].

(** [Stats.report_to_tensorboard]; [prefix] defaults to ["metrics"]. *)
Definition report_to_tensorboard (self : Stats)
    (h : gmap loc (list (list Z))) (writer : list add_scalars_call)
    (name : string) (step : Z) (prefix : string)
    : list add_scalars_call * result unit :=
  match compute self h with
  | Raise e => (writer, Raise e)
  | Ok scores =>
    (foldl (λ writer item,
              writer ++ [{| main_tag := prefix +:+ "/" +:+ item.1;
                            tag_scalar_dict := [(name, item.2)];
                            global_step := step |}])
           writer (items scores),
     Ok ())
  end.

End WithNumeric.
End Stats.

(** ** [nmt/preprocess.py] *)

Module Preprocess.

(** A [tokenizers.Tokenizer] with a [WordLevel] model and the
    [Whitespace] pre-tokenizer: the vocabulary and the unknown token. *)
Record Tokenizer : Type := {
  vocab : gmap string nat;
  unk_token : string;
}.

(** [Tokenizer.token_to_id]: [None] for a token outside the vocabulary. *)
Definition token_to_id (t : Tokenizer) (token : string) : option nat :=
  vocab t !! token.

(** What the pipeline takes from Python, numpy, [datasets] and
    [tokenizers] without the model fixing it. *)
Class Library := {
  rate : Type;                              (* a Python float *)
  rate_in_unit : rate -> bool;              (* 0 < v < 1 *)
  ceil_mul : rate -> nat -> nat;            (* ceil(v * n) *)
  permutation : Z -> nat -> list nat;       (* default_rng(seed).permutation(n) *)
  pre_tokenize : string -> list string;     (* Whitespace() *)
  encode : Tokenizer -> string -> list nat; (* tokenizer.encode(text).ids *)
  str_format : string -> string -> result string;  (* basename.format(lang) *)
  loader_accepts : nat -> Z -> bool -> bool;
    (* DataLoader(dataset, batch_size, shuffle) is built for a dataset of
       that length *)
}.

(** The one property of the generator the pipeline relies on. *)
Class LibraryLaws `{Library} : Prop := {
  permutation_perm : forall seed n, permutation seed n ≡ₚ seq 0 n;
}.

(** [nmt/constants.py] is missing from the sources: the four
    sentinel strings are parameters. *)
Class Constants := {
  PAD_TOKEN : string;
  SOS_TOKEN : string;
  EOS_TOKEN : string;
  UNK_TOKEN : string;
}.

(** The configuration dictionary, with every recognised option present. *)
Record Config `{Library} : Type := {
  dataset_path : string;
  dataset_subset : string;
  dataset_cache_dir : string;
  max_train_set_size : option Z;
  val_size_rate : option rate;
  seed : Z;
  src_lang : string;
  target_lang : string;
  seq_length : Z;
  train_batch_size : Z;
  eval_batch_size : Z;
  checkpoints_dir : string;
  tokenizer_basename : string;
  data_loaders_basename : string;
}.

(** Modelled from the spec: [dataset_util.process_dataset_sentences] is
    missing from the sources.  The Sentence Normalizer "applies
    language-specific text cleanup to raw sentence pairs"; the cleanup of
    one pair is a parameter.  A row is the [translation] dictionary of a
    record, keyed by language code. *)
Class Normalizer `{Library} := {
  normalize_pair : list string -> Config -> gmap string string -> gmap string string;
}.

(** What the pipeline builds in memory and what it writes. *)
Record BilingualDataset : Type := {
  bd_rows : list (gmap string string);
  bd_src_tokenizer : Tokenizer;
  bd_target_tokenizer : Tokenizer;
  bd_src_lang : string;
  bd_target_lang : string;
  bd_seq_length : Z;
}.

Record CollatorWithPadding : Type := {
  padding_value : option nat;
  added_features : list string;
}.

Record DataLoader : Type := {
  dl_dataset : BilingualDataset;
  dl_batch_size : Z;
  dl_shuffle : bool;
  dl_collate_fn : CollatorWithPadding;
}.

Record Path : Type := { parent : string; name : string }.

(** [dir / name] *)
Definition path_div (dir name : string) : Path :=
  {| parent := dir; name := name |}.

(** The file system is the sequence of writes made so far, oldest first.
    Operating system errors are outside the model. *)
Inductive FsEvent : Type :=
  | Mkdir (dir : string)
  | SaveTokenizer (p : Path) (t : Tokenizer)
  | TorchSave (p : Path) (obj : gmap string DataLoader).

(** A computation that writes and then returns or raises; the writes
    made before an exception stay. *)
Definition IO (A : Type) : Type := list FsEvent -> list FsEvent * result A.

Global Instance result_ret : MRet result := λ A a, Ok a.
Global Instance result_bind : MBind result := λ A B k r, rbind r k.
Global Instance IO_ret : MRet IO := λ A a fs, (fs, Ok a).
Global Instance IO_bind : MBind IO := λ A B k m fs,
  match m fs with
  | (fs', Ok a) => k a fs'
  | (fs', Raise e) => (fs', Raise e)
  end.

Definition lift {A} (r : result A) : IO A := λ fs, (fs, r).
Definition emit (e : FsEvent) : IO unit := λ fs, (fs ++ [e], Ok ()).

(** [d[k]] *)
Definition getitem {A} (d : gmap string A) (k : string) : result A :=
  match d !! k with
  | Some a => Ok a
  | None => Raise (KeyError k)
  end.

Section Pipeline.
Context `{L : Library} {K : Constants} {N : Normalizer}.

(** *** [datasets.Dataset] *)

(** [Dataset.select(indices)] *)
Definition select (ds : list (gmap string string)) (indices : list nat)
    : result (list (gmap string string)) :=
  match ds with
  | [] => Ok ds
  | _ => match mapM (λ i, ds !! i) indices with
         | Some rows => Ok rows
         | None => Raise IndexError
         end
  end.

(** [Dataset.select(range(m))] *)
Definition select_range (ds : list (gmap string string)) (m : Z)
    : result (list (gmap string string)) :=
  match ds with
  | [] => Ok ds
  | _ => if m <? 0 then Ok []
         else if m <=? Z.of_nat (length ds) then Ok (take (Z.to_nat m) ds)
         else Raise IndexError
  end.

(** [Dataset.shuffle(seed)] *)
Definition shuffle (ds : list (gmap string string)) (seed : Z)
    : result (list (gmap string string)) :=
  match ds with
  | [] => Ok ds
  | _ => select ds (permutation seed (length ds))
  end.

(** [Dataset.train_test_split(test_size=v, seed=seed)]: the pair of the
    ["train"] and the ["test"] part. *)
Definition train_test_split (ds : list (gmap string string)) (v : rate)
    (seed : Z)
    : result (list (gmap string string) * list (gmap string string)) :=
  let n_samples := length ds in
  if negb (rate_in_unit v) then Raise ValueError else
  let n_test := ceil_mul v n_samples in
  let n_train : Z := Z.of_nat n_samples - Z.of_nat n_test in
  if n_train + Z.of_nat n_test >? Z.of_nat n_samples then Raise ValueError else
  if n_train =? 0 then Raise ValueError else
  let perm := permutation seed n_samples in
  let test_indices := take n_test perm in
  let train_indices := take (Z.to_nat n_train) (drop n_test perm) in
  train ← select ds train_indices;
  test ← select ds test_indices;
  Ok (train, test).

(** *** [tokenizers] *)

(** Occurrences of [w] among the words fed to the trainer. *)
Definition count (words : list string) (w : string) : nat :=
  length (filter (w =.) words).

(** The trainer's order: higher count first, ties by the word. *)
Definition ranks_before (words : list string) (a b : string) : Prop :=
  (count words b < count words a)%nat ∨
  (count words a = count words b ∧ String.le a b).

Global Instance ranks_before_dec words : RelDecision (ranks_before words).
Proof. intros a b. unfold ranks_before. apply _. Defined.

(** The default [vocab_size] of [WordLevelTrainer]. *)
Definition vocab_size : nat := Z.to_nat 30000.

(** Ids are positions; a word listed twice keeps its last position. *)
Definition build_vocab (tokens : list string) : gmap string nat :=
  foldl (λ m iw, <[iw.2 := iw.1]> m) ∅ (zip (seq 0 (length tokens)) tokens).

(** [Tokenizer.train_from_iterator] with a [WordLevelTrainer]. *)
Definition train_from_iterator (sentences : list string)
    (min_frequency : nat) (special_tokens : list string)
    (unk : string) : Tokenizer :=
  let words := sentences ≫= pre_tokenize in
  let kept :=
    filter (λ w, (min_frequency ≤ count words w)%nat) (remove_dups words) in
  let ordered := merge_sort (ranks_before words) kept in
  {| vocab := build_vocab (take vocab_size (special_tokens ++ ordered));
     unk_token := unk |}.

(** *** [nmt.utils.dataset] *)

Definition sentence (row : gmap string string) (lang : string)
    : result string :=
  getitem row lang.

(** Modelled from the spec: [dataset_util.create_iter_from_dataset] is
    missing from the sources; it is "a lazy, restartable sequence over
    sentence text" of one language of a dataset. *)
Definition create_iter_from_dataset (dataset : list (gmap string string))
    (lang : string) : result (list string) :=
  foldr (λ row acc, s ← sentence row lang; rest ← acc; Ok (s :: rest))
        (Ok []) dataset.

(** Modelled from the spec: [dataset_util.process_dataset_sentences] is
    missing from the sources; every pair of every split is normalized. *)
Definition process_dataset_sentences
    (raw_datasets : gmap string (list (gmap string string)))
    (langs : list string) (vi_config : Config)
    : gmap string (list (gmap string string)) :=
  (λ rows : list (gmap string string),
     normalize_pair langs vi_config <$> rows) <$> raw_datasets.

(** Modelled from the spec: does the length filter keep this pair?
    "tokenize both sides with the respective vocabulary's tokenizer; drop
    the pair if either side's token count exceeds [max_content_len]". *)
Definition keeps (src_tokenizer target_tokenizer : Tokenizer)
    (max_content_len : Z) (src_lang target_lang : string)
    (row : gmap string string) : result bool :=
  s ← sentence row src_lang;
  t ← sentence row target_lang;
  Ok (negb (max_content_len <? Z.of_nat (length (encode src_tokenizer s))) &&
      negb (max_content_len <? Z.of_nat (length (encode target_tokenizer t)))).

Definition filter_rows (p : gmap string string -> result bool)
    (ds : list (gmap string string)) : result (list (gmap string string)) :=
  foldr (λ row acc, b ← p row; rest ← acc;
                    Ok (if b : bool then row :: rest else rest))
        (Ok []) ds.

(** A dictionary of outcomes is a dictionary of values unless one of
    them is an exception. *)
Definition dict_sequence {A} (d : gmap string (result A))
    : result (gmap string A) :=
  match list_find (λ kv, is_ok kv.2 = false) (map_to_list d) with
  | Some (_, (_, Raise e)) => Raise e
  | _ => Ok (omap (λ r, match r with Ok a => Some a | Raise _ => None end) d)
  end.

(** Modelled from the spec: [dataset_util.remove_invalid_sentences] is
    missing from the sources.  The Length Filter is "applied
    independently to every split". *)
Definition remove_invalid_sentences
    (raw_datasets : gmap string (list (gmap string string)))
    (src_tokenizer target_tokenizer : Tokenizer) (max_content_len : Z)
    (src_lang target_lang : string)
    : result (gmap string (list (gmap string string))) :=
  dict_sequence
    (filter_rows (keeps src_tokenizer target_tokenizer max_content_len
                        src_lang target_lang) <$> raw_datasets).

(** *** [tokenize] and [preprocess] *)

Definition special_tokens : list string :=
  [PAD_TOKEN; SOS_TOKEN; EOS_TOKEN; UNK_TOKEN].

(** [tokenize(dataset, lang, config, min_freq)] *)
Definition tokenize (dataset : list (gmap string string)) (lang : string)
    (config : Config) (min_freq : nat) : IO Tokenizer :=
  let dir := checkpoints_dir config in
  basename ← lift (str_format (tokenizer_basename config) lang);
  let tokenizer_path := path_div dir basename in
  emit (Mkdir dir);;
  dataset_iter ← lift (create_iter_from_dataset dataset lang);
  let tokenizer :=
    train_from_iterator dataset_iter min_freq special_tokens UNK_TOKEN in
  emit (SaveTokenizer tokenizer_path tokenizer);;
  mret tokenizer.

(** Lines 43-45 of [preprocess]: the optional truncation of the train
    split. *)
Definition truncate_train (config : Config)
    (raw_datasets : gmap string (list (gmap string string)))
    : result (gmap string (list (gmap string string))) :=
  match max_train_set_size config with
  | None => Ok raw_datasets
  | Some m =>
    train ← getitem raw_datasets "train";
    if m <? Z.of_nat (length train) then
      shuffled ← shuffle train (seed config);
      selected ← select_range shuffled m;
      Ok (<["train" := selected]> raw_datasets)
    else Ok raw_datasets
  end.

(** Lines 47-53 of [preprocess]: the optional validation split. *)
Definition derive_validation (config : Config)
    (raw_datasets : gmap string (list (gmap string string)))
    : result (gmap string (list (gmap string string))) :=
  match val_size_rate config with
  | None => Ok raw_datasets
  | Some v =>
    let old_datasets := raw_datasets in
    train ← getitem old_datasets "train";
    parts ← train_test_split train v (seed config);
    let raw_datasets : gmap string (list (gmap string string)) :=
      <["test" := parts.2]> (<["train" := parts.1]> ∅) in
    (* rename the default "test" split to "validation" *)
    popped ← getitem raw_datasets "test";
    let raw_datasets := <["validation" := popped]> (delete "test" raw_datasets) in
    (* add the test set for raw_datasets *)
    test ← getitem old_datasets "test";
    Ok (<["test" := test]> raw_datasets)
  end.

Definition num_reserved_tokens : Z := 2.  (* for SOS and EOS tokens *)

(** [DataLoader(dataset, batch_size=..., shuffle=..., collate_fn=...)]:
    torch rejects some sizes with [ValueError]. *)
Definition new_DataLoader (dataset : BilingualDataset) (batch_size : Z)
    (shuffle : bool) (collate_fn : CollatorWithPadding) : result DataLoader :=
  if loader_accepts (length (bd_rows dataset)) batch_size shuffle
  then Ok {| dl_dataset := dataset; dl_batch_size := batch_size;
             dl_shuffle := shuffle; dl_collate_fn := collate_fn |}
  else Raise ValueError.

(** Lines 81-126 of [preprocess]: the three datasets, the assertion on
    the pad id, the collator, the loaders and their persistence.
    Modelled from the spec: [BilingualDataset] and [CollatorWithPadding]
    are missing from the sources and are taken to record their
    arguments, the length of a [BilingualDataset] being the number of
    its pairs. *)
Definition build_loaders (config : Config)
    (raw_datasets : gmap string (list (gmap string string)))
    (src_tokenizer target_tokenizer : Tokenizer) : IO unit :=
  let wrap rows :=
    {| bd_rows := rows;
       bd_src_tokenizer := src_tokenizer;
       bd_target_tokenizer := target_tokenizer;
       bd_src_lang := src_lang config;
       bd_target_lang := target_lang config;
       bd_seq_length := seq_length config |} in
  train_rows ← lift (getitem raw_datasets "train");
  let train_dataset := wrap train_rows in
  validation_rows ← lift (getitem raw_datasets "validation");
  let validation_dataset := wrap validation_rows in
  test_rows ← lift (getitem raw_datasets "test");
  let test_dataset := wrap test_rows in
  if decide (token_to_id src_tokenizer PAD_TOKEN
             = token_to_id target_tokenizer PAD_TOKEN) then
    let pad_token_id := token_to_id src_tokenizer PAD_TOKEN in
    let data_collator :=
      {| padding_value := pad_token_id;
         added_features := ["encoder_input"; "decoder_input"; "labels"] |} in
    train_data_loader ←
      lift (new_DataLoader train_dataset (train_batch_size config)
                           true data_collator);
    validation_data_loader ←
      lift (new_DataLoader validation_dataset (eval_batch_size config)
                           false data_collator);
    test_data_loader ←
      lift (new_DataLoader test_dataset (eval_batch_size config)
                           false data_collator);
    let data_loaders : gmap string DataLoader :=
      <["test" := test_data_loader]>
        (<["validation" := validation_data_loader]>
           (<["train" := train_data_loader]> ∅)) in
    let dir := checkpoints_dir config in
    let data_loaders_path := path_div dir (data_loaders_basename config) in
    emit (Mkdir dir);;
    emit (TorchSave data_loaders_path data_loaders)
  else lift (Raise AssertionError).

(** [preprocess(config)], from the dictionary [load_dataset] returned.
    What is printed is not part of the model. *)
Definition preprocess (config : Config)
    (loaded : gmap string (list (gmap string string))) : IO unit :=
  raw_datasets ← lift (truncate_train config loaded);
  raw_datasets ← lift (derive_validation config raw_datasets);
  let raw_datasets :=
    process_dataset_sentences raw_datasets
      [src_lang config; target_lang config] config in
  _ ← lift (getitem raw_datasets "train");
  train ← lift (getitem raw_datasets "train");
  src_tokenizer ← tokenize train (src_lang config) config 2;
  train ← lift (getitem raw_datasets "train");
  target_tokenizer ← tokenize train (target_lang config) config 2;
  raw_datasets ← lift (remove_invalid_sentences raw_datasets
                         src_tokenizer target_tokenizer
                         (seq_length config - num_reserved_tokens)
                         (src_lang config) (target_lang config));
  build_loaders config raw_datasets src_tokenizer target_tokenizer.

End Pipeline.
End Preprocess.

(** * Properties *)

(** ** The metric aggregator *)

Module StatsFacts.
Import Stats.

Section Facts.
Context `{NU : Numeric}.

Lemma init_fields nb l p lb beta avg pad ign s :
  __init__ nb l p lb beta avg pad ign = Ok s ->
  num_batchs s = nb ∧ loss s = l ∧ pad_token_id s = pad ∧
  ignore_padding s = ign ∧ pred s = default default_pred p ∧
  labels s = default default_labels lb.
Proof.
  unfold __init__. destruct (ign && _); [discriminate|].
  intros [= <-]. done.
Qed.

(** C8: the constructor raises exactly when padding is to be ignored
    and no pad id is given, the exception is then [ValueError], and in
    every other case the new object holds the given batch count, loss,
    pad id and flag. *)
Theorem init_raises_iff nb l p lb beta avg (pad : option Z) (ign : bool) :
  ((∃ e, __init__ nb l p lb beta avg pad ign = Raise e) ↔
     (ign = true ∧ pad = None)) ∧
  (__init__ nb l p lb beta avg pad ign = Raise ValueError ↔
     (ign = true ∧ pad = None)) ∧
  (¬ (ign = true ∧ pad = None) ->
     ∃ s, __init__ nb l p lb beta avg pad ign = Ok s ∧
          loss s = l ∧ num_batchs s = nb ∧
          pad_token_id s = pad ∧ ignore_padding s = ign).
Proof.
  unfold __init__.
  destruct ign, pad as [z|]; simpl; split_and!;
    try (split; [intros [e [=]] | intros [[=] [=]]]);
    try (split; [intros [=] | intros [[=] [=]]]);
    try (split; eauto; fail);
    try (intros _; eexists; split_and!; reflexivity).
  - by exists ValueError.
  - intros []; done.
Qed.

Lemma update_step_fields s h l yp yt s' h' r :
  update_step s h l yp yt = (s', h', r) ->
  num_batchs s' = num_batchs s + 1 ∧ pred s' = pred s ∧ labels s' = labels s.
Proof.
  unfold update_step. intros Hs.
  repeat (case_match; simplify_eq/=); done.
Qed.

Lemma update_steps_fields calls : forall s h s' h',
  update_steps s h calls = (s', h') ->
  num_batchs s' = num_batchs s + Z.of_nat (length calls) ∧
  pred s' = pred s ∧ labels s' = labels s.
Proof.
  induction calls as [|[[l p] t] calls IH]; intros s h s' h' Hs; simpl in *.
  - simplify_eq. split; [lia|done].
  - destruct (update_step s h l p t) as [[s1 h1] r] eqn:Hu.
    apply update_step_fields in Hu as (Hn & Hp & Hl).
    apply IH in Hs as (Hn' & Hp' & Hl').
    rewrite Hn', Hp', Hl', Hn, Hp, Hl. split; [lia|done].
Qed.

Lemma compute_zero_batches s h :
  num_batchs s = 0 -> ∃ e, compute s h = Raise e.
Proof.
  intros Hz. unfold compute, compute_on.
  destruct (concatenate _) as [yp|e]; simpl; [|eauto].
  destruct (concatenate _) as [yt|e]; simpl; [|eauto].
  rewrite Hz. simpl. eauto.
Qed.

(** C9: on an object built with [num_batchs = 0], [compute] raises
    whatever the heap holds: with empty buffers the concatenation of no
    arrays fails, with filled buffers the division of the loss by zero
    batches does.  So whenever [compute] returns metrics on such an
    object, [update_step] was called on it at least once. *)
Theorem compute_requires_update l p lb beta avg pad ign s :
  __init__ 0 l p lb beta avg pad ign = Ok s ->
  (∀ h : gmap loc (list (list Z)),
     h !! pred s = Some [] -> h !! labels s = Some [] ->
     compute s h = Raise ValueError) ∧
  (∀ (h : gmap loc (list (list Z))) bp bl,
     h !! pred s = Some bp -> h !! labels s = Some bl ->
     bp ≠ [] -> bl ≠ [] -> compute s h = Raise ZeroDivisionError) ∧
  (∀ h, ∃ e, compute s h = Raise e) ∧
  (∀ h calls s' h' m,
     update_steps s h calls = (s', h') ->
     compute s' h' = Ok m -> (1 ≤ length calls)%nat).
Proof.
  intros Hi. apply init_fields in Hi as (Hn & _).
  split_and!.
  - intros h Hp Hl. unfold compute. rewrite Hp, Hl. reflexivity.
  - intros h bp bl Hp Hl Hbp Hbl. unfold compute, compute_on.
    rewrite Hp, Hl. simpl.
    destruct bp; [done|]. destruct bl; [done|]. simpl. by rewrite Hn.
  - intros h. by apply compute_zero_batches.
  - intros h calls s' h' m Hu Hc.
    apply update_steps_fields in Hu as (Hn' & _).
    destruct calls; [|simpl; lia].
    destruct (compute_zero_batches s' h') as [e He]; [simpl in Hn'; lia|].
    congruence.
Qed.

Lemma update_step_returns s h l yp yt s' h' :
  update_step s h l yp yt = (s', h', None) ->
  ∃ p t, h' = append_buf (labels s) t (append_buf (pred s) p h) ∧
         (ignore_padding s = false -> p = to_numpy yp ∧ t = to_numpy yt).
Proof.
  unfold update_step. intros Hs.
  repeat (case_match; simplify_eq/=); eexists _, _; split; try done;
    intros; simplify_eq/=; try done; congruence.
Qed.

Lemma append_default_bufs (h : gmap loc (list (list Z))) p t bp bl :
  h !! default_pred = Some bp ->
  h !! default_labels = Some bl ->
  append_buf default_labels t (append_buf default_pred p h) !! default_pred
    = Some (bp ++ [p]) ∧
  append_buf default_labels t (append_buf default_pred p h) !! default_labels
    = Some (bl ++ [t]).
Proof.
  intros Hp Hl. unfold append_buf, default_pred, default_labels in *.
  rewrite lookup_alter_ne, lookup_alter_eq, Hp by done.
  rewrite lookup_alter_eq, lookup_alter_ne, Hl by done.
  done.
Qed.

(** C10: two objects built without [pred] and [labels] hold the same
    two lists, whatever was done with the second since.  After an
    [update_step] on the first has returned, the buffers of the second
    are the old ones extended by that batch, so they are not empty, and
    [compute] on the second runs on the extended buffers. *)
Theorem default_buffers_shared
    nb1 l1 beta1 avg1 pad1 ign1 nb2 l2 beta2 avg2 pad2 ign2
    s1 s2 h0 calls s2' (h : gmap loc (list (list Z))) bp bl l yp yt s1' h' :
  __init__ nb1 l1 None None beta1 avg1 pad1 ign1 = Ok s1 ->
  __init__ nb2 l2 None None beta2 avg2 pad2 ign2 = Ok s2 ->
  update_steps s2 h0 calls = (s2', h) ->
  h !! default_pred = Some bp ->
  h !! default_labels = Some bl ->
  update_step s1 h l yp yt = (s1', h', None) ->
  pred s1 = pred s2 ∧ labels s1 = labels s2 ∧
  pred s2' = pred s1 ∧ labels s2' = labels s1 ∧
  ∃ p t,
    (ignore_padding s1 = false -> p = to_numpy yp ∧ t = to_numpy yt) ∧
    h' !! pred s2' = Some (bp ++ [p]) ∧
    h' !! labels s2' = Some (bl ++ [t]) ∧
    h' !! pred s2' ≠ Some [] ∧ h' !! labels s2' ≠ Some [] ∧
    compute s2' h = compute_on s2' bp bl ∧
    compute s2' h' = compute_on s2' (bp ++ [p]) (bl ++ [t]).
Proof.
  intros H1 H2 Hc Hp Hl Hu.
  apply init_fields in H1 as (_ & _ & _ & _ & Hp1 & Hl1).
  apply init_fields in H2 as (_ & _ & _ & _ & Hp2 & Hl2).
  apply update_steps_fields in Hc as (_ & Hp2' & Hl2').
  simpl in *. split_and!; try congruence.
  apply update_step_returns in Hu as (p & t & -> & Hraw).
  exists p, t. rewrite Hp1, Hl1, Hp2', Hl2', Hp2, Hl2.
  destruct (append_default_bufs h p t bp bl Hp Hl) as [Ha Hb].
  unfold compute. rewrite Hp2', Hl2', Hp2, Hl2, Ha, Hb, Hp, Hl. simpl.
  split_and!; try done.
  all: intros [= Hnil]; by apply app_nil in Hnil as [_ [=]].
Qed.

End Facts.

(** *** The aggregator run on the exact instance *)

(** An exact instance on which the model runs: losses are integers,
    accuracy is the number of positions where prediction and label
    agree, and the three scores of the second metric are lengths. *)
Definition matches (y_true y_pred : list Z) : Z :=
  count_true ((λ p, p.1 =? p.2) <$> zip y_true y_pred).

#[local] Instance exact_numeric : Numeric := {|
  float := Z;
  float_zero := 0;
  float_half := 0;
  float_add := Z.add;
  float_div_int := Z.div;
  accuracy_score y_true y_pred :=
    if (length y_true =? length y_pred)%nat
    then Ok (matches y_true y_pred) else Raise ValueError;
  precision_recall_fscore_support y_true y_pred _ _ :=
    if (length y_true =? length y_pred)%nat
    then Ok (Z.of_nat (length y_true), Z.of_nat (length y_pred), 0)
    else Raise ValueError;
|}.

Definition fresh : result (@Stats exact_numeric) :=
  @default_Stats exact_numeric.

Definition fresh_obj : @Stats exact_numeric :=
  {| num_batchs := 0; loss := 0; pred := default_pred;
     labels := default_labels; f_score_beta := 0; average := "weighted";
     ignore_padding := false; pad_token_id := None;
     num_matches := 0; num_totals := 0 |}.

Lemma compute_requires_update_witness :
  @compute exact_numeric fresh_obj class_heap = Raise ValueError ∧
  @compute exact_numeric fresh_obj
     (<[default_labels := [[1]]]> (<[default_pred := [[1]]]> ∅))
    = Raise ZeroDivisionError.
Proof.
  destruct (@compute_requires_update exact_numeric
              0 None None 0 "weighted" None false fresh_obj eq_refl)
    as (Hempty & Hfilled & _).
  split.
  - apply Hempty; vm_compute; reflexivity.
  - apply (Hfilled _ [[1]] [[1]]); try (vm_compute; reflexivity);
      discriminate.
Defined.

(** One batch recorded through the second object, then one through the
    first: the metrics of the second change. *)
Definition second_after : @Stats exact_numeric * gmap loc (list (list Z)) :=
  update_steps fresh_obj class_heap [(5, NdArray [1], NdArray [1])].

Definition first_after :=
  @update_step exact_numeric fresh_obj second_after.2 7
     (NdArray [2]) (Tensor [3]).

Lemma default_buffers_shared_witness :
  (first_after.1.2 !! pred second_after.1 = Some [[1]; [2]] ∧
   first_after.1.2 !! labels second_after.1 = Some [[1]; [3]]) ∧
  compute second_after.1 second_after.2
    = Ok {| m_loss := 5; m_acc := 1; m_precision := 1; m_recall := 1;
            m_f_beta := 0 |} ∧
  compute second_after.1 first_after.1.2
    = Ok {| m_loss := 5; m_acc := 1; m_precision := 2; m_recall := 2;
            m_f_beta := 0 |}.
Proof.
  destruct (@default_buffers_shared exact_numeric
              0 0 0 "weighted" None false 0 0 0 "weighted" None false
              fresh_obj fresh_obj class_heap
              [(5, NdArray [1], NdArray [1])] second_after.1 second_after.2
              [[1]] [[1]] 7 (NdArray [2]) (Tensor [3])
              first_after.1.1 first_after.1.2)
    as (_ & _ & _ & _ & p & t & Hraw & Hp & Hl & _ & _ & _ & _);
    try (vm_compute; reflexivity).
  destruct (Hraw eq_refl) as [-> ->].
  split; [split; [exact Hp | exact Hl]|].
  split; vm_compute; reflexivity.
Defined.

End StatsFacts.

(** ** The corpus preparation pipeline *)

Module PreprocessFacts.
Import Preprocess.

(** *** Results *)

Lemma rbind_Ok {A B} (r : result A) (k : A -> result B) b :
  r ≫= k = Ok b <-> ∃ a, r = Ok a ∧ k a = Ok b.
Proof.
  destruct r as [a|e]; simpl; [|split; [done|intros (? & [=] & _)]].
  split; [eauto|]. by intros (? & [= <-] & ?).
Qed.


Lemma getitem_None {A} (d : gmap string A) k :
  d !! k = None -> getitem d k = Raise (KeyError k).
Proof. unfold getitem. by intros ->. Qed.

(** *** Selecting rows by index *)

Section Rows.
Context {A : Type}.
Implicit Types (ds : list A) (idx : list nat).




End Rows.

Section Facts.
Context `{L : Library} {K : Constants} {N : Normalizer}.


(** *** The trained vocabulary *)



Global Instance ranks_before_total words : Total (ranks_before words).
Proof.
  intros a b. unfold ranks_before.
  destruct (lt_eq_lt_dec (count words a) (count words b)) as [[?|?]|?];
    [right; left; lia| |left; left; lia].
  destruct (total String.le a b); [left|right]; right; split; done.
Qed.

Global Instance ranks_before_trans words : Transitive (ranks_before words).
Proof.
  intros a b c [?|[? ?]] [?|[? ?]]; unfold ranks_before;
    [left; lia|left; lia|left; lia|].
  right. split; [lia|]. by etrans.
Qed.



(** The words of the corpus and the induced tokens in id order. *)
Definition corpus_words (sentences : list string) : list string :=
  sentences ≫= pre_tokenize.

Definition ranked_words (sentences : list string) (min_freq : nat)
    : list string :=
  merge_sort (ranks_before (corpus_words sentences))
    (filter (λ w, (min_freq ≤ count (corpus_words sentences) w)%nat)
            (remove_dups (corpus_words sentences))).

Lemma elem_of_ranked_words sentences min_freq w :
  w ∈ ranked_words sentences min_freq <->
  (min_freq ≤ count (corpus_words sentences) w)%nat ∧
  w ∈ corpus_words sentences.
Proof.
  unfold ranked_words. rewrite merge_sort_Permutation.
  by rewrite list_elem_of_filter, elem_of_remove_dups.
Qed.








Lemma tokenize_returns dataset lang (config : Config) min_freq fs
    sentences basename :
  create_iter_from_dataset dataset lang = Ok sentences ->
  str_format (tokenizer_basename config) lang = Ok basename ->
  tokenize dataset lang config min_freq fs =
    (fs ++ [Mkdir (checkpoints_dir config);
            SaveTokenizer (path_div (checkpoints_dir config) basename)
              (train_from_iterator sentences min_freq special_tokens
                                   UNK_TOKEN)],
     Ok (train_from_iterator sentences min_freq special_tokens UNK_TOKEN)).
Proof.
  intros Hs Hb. unfold tokenize, mbind, IO_bind, lift, emit. simpl.
  rewrite Hb, Hs. simpl. by rewrite <- app_assoc.
Qed.


(** *** The length filter *)






(** *** The shape of a run *)

(** Lines 43-59 of [preprocess]: nothing is written before the splits
    are ready. *)
Definition splits_stage (config : Config)
    (loaded : gmap string (list (gmap string string)))
    : result (gmap string (list (gmap string string))) :=
  raw ← truncate_train config loaded;
  raw ← derive_validation config raw;
  Ok (process_dataset_sentences raw
        [src_lang config; target_lang config] config).

Lemma preprocess_splits (config : Config) loaded fs :
  preprocess config loaded fs =
  match splits_stage config loaded with
  | Raise e => (fs, Raise e)
  | Ok raw =>
    match raw !! "train" with
    | None => (fs, Raise (KeyError "train"))
    | Some train =>
      match tokenize train (src_lang config) config 2 fs with
      | (fs1, Raise e) => (fs1, Raise e)
      | (fs1, Ok src_tokenizer) =>
        match tokenize train (target_lang config) config 2 fs1 with
        | (fs2, Raise e) => (fs2, Raise e)
        | (fs2, Ok target_tokenizer) =>
          match remove_invalid_sentences raw src_tokenizer target_tokenizer
                  (seq_length config - num_reserved_tokens)
                  (src_lang config) (target_lang config) with
          | Raise e => (fs2, Raise e)
          | Ok filtered =>
            build_loaders config filtered src_tokenizer target_tokenizer fs2
          end
        end
      end
    end
  end.
Proof.
  unfold preprocess, splits_stage, mbind, IO_bind, result_bind, lift.
  destruct (truncate_train config loaded) as [raw1|e]; simpl; [|done].
  destruct (derive_validation config raw1) as [raw2|e]; simpl; [|done].
  unfold getitem.
  destruct (process_dataset_sentences raw2 _ config !! "train")
    as [train|]; [|done].
  destruct (tokenize train (src_lang config) config 2 fs) as [fs1 [t1|e]];
    [|done].
  destruct (tokenize train (target_lang config) config 2 fs1)
    as [fs2 [t2|e]]; [|done].
  by destruct (remove_invalid_sentences _ _ _ _ _ _).
Qed.

Lemma tokenize_cases dataset lang (config : Config) min_freq fs :
  (∃ e, tokenize dataset lang config min_freq fs = (fs, Raise e)) ∨
  (∃ e, tokenize dataset lang config min_freq fs
        = (fs ++ [Mkdir (checkpoints_dir config)], Raise e)) ∨
  (∃ basename sentences,
     str_format (tokenizer_basename config) lang = Ok basename ∧
     create_iter_from_dataset dataset lang = Ok sentences ∧
     tokenize dataset lang config min_freq fs =
       (fs ++ [Mkdir (checkpoints_dir config);
               SaveTokenizer (path_div (checkpoints_dir config) basename)
                 (train_from_iterator sentences min_freq special_tokens
                                      UNK_TOKEN)],
        Ok (train_from_iterator sentences min_freq special_tokens
                                UNK_TOKEN))).
Proof.
  destruct (str_format (tokenizer_basename config) lang) as [b|e] eqn:Hb.
  - destruct (create_iter_from_dataset dataset lang) as [s|e] eqn:Hs.
    + right; right. exists b, s. split_and!; [done..|].
      by apply tokenize_returns.
    + right; left. exists e.
      unfold tokenize, mbind, IO_bind, lift, emit. simpl.
      by rewrite Hb, Hs.
  - left. exists e. unfold tokenize, mbind, IO_bind, lift. simpl.
    by rewrite Hb.
Qed.

(** The loaders saved by a run that reached the end: all three carry
    one collator, padded with [pad]. *)
Definition padded_with (pad : option nat)
    (loaders : gmap string DataLoader) : Prop :=
  dom loaders = {["train"; "validation"; "test"]} ∧
  ∀ name dl, loaders !! name = Some dl ->
             padding_value (dl_collate_fn dl) = pad.

(** Do the three [DataLoader] constructors accept the splits? *)
Definition split_size (raw : gmap string (list (gmap string string)))
    (name : string) : nat :=
  length (default [] (raw !! name)).

Definition loaders_accepted (config : Config)
    (raw : gmap string (list (gmap string string))) : bool :=
  loader_accepts (split_size raw "train") (train_batch_size config) true &&
  loader_accepts (split_size raw "validation") (eval_batch_size config) false &&
  loader_accepts (split_size raw "test") (eval_batch_size config) false.

Lemma build_loaders_cases (config : Config) raw src_tokenizer
    target_tokenizer fs :
  (∃ e, build_loaders config raw src_tokenizer target_tokenizer fs
        = (fs, Raise e) ∧
        (is_Some (raw !! "train") -> is_Some (raw !! "validation") ->
         is_Some (raw !! "test") ->
         (e = AssertionError ∧
          token_to_id src_tokenizer PAD_TOKEN
            ≠ token_to_id target_tokenizer PAD_TOKEN) ∨
         (e = ValueError ∧
          token_to_id src_tokenizer PAD_TOKEN
            = token_to_id target_tokenizer PAD_TOKEN ∧
          loaders_accepted config raw = false))) ∨
  (∃ loaders,
     build_loaders config raw src_tokenizer target_tokenizer fs =
       (fs ++ [Mkdir (checkpoints_dir config);
               TorchSave (path_div (checkpoints_dir config)
                                   (data_loaders_basename config)) loaders],
        Ok ()) ∧
     token_to_id src_tokenizer PAD_TOKEN
       = token_to_id target_tokenizer PAD_TOKEN ∧
     loaders_accepted config raw = true ∧
     padded_with (token_to_id src_tokenizer PAD_TOKEN) loaders).
Proof.
  unfold build_loaders, loaders_accepted, split_size, mbind, IO_bind, lift,
    emit, getitem, new_DataLoader.
  destruct (raw !! "train") as [tr|];
    [|left; eexists; split; [done|by intros [? [=]]]].
  destruct (raw !! "validation") as [va|];
    [|left; eexists; split; [done|by intros _ [? [=]]]].
  destruct (raw !! "test") as [te|];
    [|left; eexists; split; [done|by intros _ _ [? [=]]]].
  destruct (decide (token_to_id src_tokenizer PAD_TOKEN
                    = token_to_id target_tokenizer PAD_TOKEN)) as [Heq|Hne];
    [|left; exists AssertionError; split; [done|by left]].
  cbn [bd_rows from_option id].
  destruct (loader_accepts (length tr) _ true) eqn:?;
    [|left; exists ValueError; split;
      [done|intros _ _ _; right; split_and!; [done|done|]];
      by repeat match goal with H : loader_accepts _ _ _ = _ |- _ =>
                  rewrite H end].
  destruct (loader_accepts (length va) _ false) eqn:?;
    [|left; exists ValueError; split;
      [done|intros _ _ _; right; split_and!; [done|done|]];
      by repeat match goal with H : loader_accepts _ _ _ = _ |- _ =>
                  rewrite H end].
  destruct (loader_accepts (length te) _ false) eqn:?;
    [|left; exists ValueError; split;
      [done|intros _ _ _; right; split_and!; [done|done|]];
      by repeat match goal with H : loader_accepts _ _ _ = _ |- _ =>
                  rewrite H end].
  right. eexists. split_and!.
  - simpl. by rewrite <- app_assoc.
  - done.
  - done.
  - split.
    + rewrite !dom_insert_L, dom_empty_L. set_solver.
    + intros name dl Hdl.
      repeat (apply lookup_insert_Some in Hdl as [[_ <-]|[_ Hdl]];
              [done|]).
      by rewrite lookup_empty in Hdl.
Qed.

(** The writes of a run of [preprocess] started on [fs], and how the
    run ended. *)
Inductive run_shape (config : Config) (fs : list FsEvent)
    : list FsEvent -> result unit -> Prop :=
  | failed_before_writes e :
      run_shape config fs fs (Raise e)
  | failed_in_first_training e :
      run_shape config fs (fs ++ [Mkdir (checkpoints_dir config)]) (Raise e)
  | failed_after_first_vocab n1 t1 e :
      run_shape config fs
        (fs ++ [Mkdir (checkpoints_dir config);
                SaveTokenizer (path_div (checkpoints_dir config) n1) t1])
        (Raise e)
  | failed_in_second_training n1 t1 e :
      run_shape config fs
        (fs ++ [Mkdir (checkpoints_dir config);
                SaveTokenizer (path_div (checkpoints_dir config) n1) t1;
                Mkdir (checkpoints_dir config)])
        (Raise e)
  | failed_after_vocabs n1 t1 n2 t2 e :
      run_shape config fs
        (fs ++ [Mkdir (checkpoints_dir config);
                SaveTokenizer (path_div (checkpoints_dir config) n1) t1;
                Mkdir (checkpoints_dir config);
                SaveTokenizer (path_div (checkpoints_dir config) n2) t2])
        (Raise e)
  | completed n1 t1 n2 t2 loaders :
      token_to_id t1 PAD_TOKEN = token_to_id t2 PAD_TOKEN ->
      padded_with (token_to_id t1 PAD_TOKEN) loaders ->
      run_shape config fs
        (fs ++ [Mkdir (checkpoints_dir config);
                SaveTokenizer (path_div (checkpoints_dir config) n1) t1;
                Mkdir (checkpoints_dir config);
                SaveTokenizer (path_div (checkpoints_dir config) n2) t2;
                Mkdir (checkpoints_dir config);
                TorchSave (path_div (checkpoints_dir config)
                                    (data_loaders_basename config)) loaders])
        (Ok ()).

Lemma preprocess_run_shape (config : Config) loaded fs :
  run_shape config fs (preprocess config loaded fs).1
                      (preprocess config loaded fs).2.
Proof.
  rewrite preprocess_splits.
  destruct (splits_stage config loaded) as [raw|e]; [|constructor].
  destruct (raw !! "train") as [train|]; [|constructor].
  destruct (tokenize_cases train (src_lang config) config 2 fs)
    as [[e ->]|[[e ->]|(n1 & s1 & _ & _ & ->)]]; [constructor..|].
  set (t1 := train_from_iterator s1 2 special_tokens UNK_TOKEN).
  destruct (tokenize_cases train (target_lang config) config 2
              (fs ++ [Mkdir (checkpoints_dir config);
                      SaveTokenizer (path_div (checkpoints_dir config) n1) t1]))
    as [[e ->]|[[e ->]|(n2 & s2 & _ & _ & ->)]].
  - constructor.
  - rewrite <- app_assoc. constructor.
  - set (t2 := train_from_iterator s2 2 special_tokens UNK_TOKEN).
    destruct (remove_invalid_sentences raw t1 t2 _ _ _) as [filtered|e].
    + destruct (build_loaders_cases config filtered t1 t2
                  ((fs ++ [Mkdir (checkpoints_dir config);
                           SaveTokenizer (path_div (checkpoints_dir config) n1) t1])
                     ++ [Mkdir (checkpoints_dir config);
                         SaveTokenizer (path_div (checkpoints_dir config) n2) t2]))
        as [(e & -> & _)|(loaders & -> & Heq & _ & Hpad)].
      * rewrite <- app_assoc. constructor.
      * rewrite <- !app_assoc. by constructor.
    + rewrite <- app_assoc. constructor.
Qed.

(** The tokenizer files among the writes. *)
Definition saved_tokenizers (fs : list FsEvent) : list (Path * Tokenizer) :=
  omap (λ ev, match ev with
              | SaveTokenizer p t => Some (p, t)
              | _ => None
              end) fs.


Lemma truncate_train_agree (config : Config) d1 d2 :
  d1 !! "train" = d2 !! "train" ->
  match truncate_train config d1, truncate_train config d2 with
  | Ok r1, Ok r2 =>
      r1 !! "train" = r2 !! "train" ∧
      r1 !! "test" = d1 !! "test" ∧ r2 !! "test" = d2 !! "test"
  | Raise e1, Raise e2 => e1 = e2
  | _, _ => False
  end.
Proof.
  intros Ht. unfold truncate_train, getitem.
  destruct (max_train_set_size config) as [m|]; [|done].
  rewrite <- Ht. destruct (d1 !! "train") as [train|] eqn:E; simpl; [|done].
  destruct (m <? _); simpl; [|by rewrite E].
  destruct (shuffle train (seed config)) as [sh|]; simpl; [|done].
  destruct (select_range sh m); simpl; [|done].
  rewrite !lookup_insert_eq. by rewrite !lookup_insert_ne by done.
Qed.

Lemma derive_validation_agree (config : Config) r1 r2 :
  r1 !! "train" = r2 !! "train" ->
  (is_Some (r1 !! "test") <-> is_Some (r2 !! "test")) ->
  match derive_validation config r1, derive_validation config r2 with
  | Ok o1, Ok o2 => o1 !! "train" = o2 !! "train"
  | Raise e1, Raise e2 => e1 = e2
  | _, _ => False
  end.
Proof.
  intros Ht Hte. unfold derive_validation, getitem.
  destruct (val_size_rate config) as [v|]; [|done].
  rewrite <- Ht. destruct (r1 !! "train") as [train|]; simpl; [|done].
  destruct (train_test_split train v (seed config)) as [[tr te]|]; simpl;
    [|done].
  rewrite lookup_insert_eq. simpl.
  destruct (r1 !! "test") as [t1|], (r2 !! "test") as [t2|]; simpl.
  - by rewrite !lookup_insert_ne by done.
  - destruct Hte as [Hte _]. by destruct Hte.
  - destruct Hte as [_ Hte]. by destruct Hte.
  - done.
Qed.

Lemma splits_stage_agree (config : Config) d1 d2 :
  d1 !! "train" = d2 !! "train" ->
  (is_Some (d1 !! "test") <-> is_Some (d2 !! "test")) ->
  match splits_stage config d1, splits_stage config d2 with
  | Ok o1, Ok o2 => o1 !! "train" = o2 !! "train"
  | Raise e1, Raise e2 => e1 = e2
  | _, _ => False
  end.
Proof.
  intros Ht Hte. unfold splits_stage.
  pose proof (truncate_train_agree config d1 d2 Ht) as Htr.
  destruct (truncate_train config d1) as [r1|],
           (truncate_train config d2) as [r2|]; simpl; try done.
  destruct Htr as (Ht' & Ht1 & Ht2).
  pose proof (derive_validation_agree config r1 r2 Ht') as Hdv.
  rewrite Ht1, Ht2 in Hdv. specialize (Hdv Hte).
  destruct (derive_validation config r1) as [o1|],
           (derive_validation config r2) as [o2|]; simpl; try done.
  unfold process_dataset_sentences. by rewrite !lookup_fmap, Hdv.
Qed.

Lemma saved_tokenizers_app fs1 fs2 :
  saved_tokenizers (fs1 ++ fs2) = saved_tokenizers fs1 ++ saved_tokenizers fs2.
Proof. unfold saved_tokenizers. apply omap_app. Qed.

Lemma saved_after_vocabs (config : Config) raw t1 t2 fs :
  saved_tokenizers
    (match remove_invalid_sentences raw t1 t2
             (seq_length config - num_reserved_tokens)
             (src_lang config) (target_lang config) with
     | Raise e => (fs, Raise e)
     | Ok filtered => build_loaders config filtered t1 t2 fs
     end).1 = saved_tokenizers fs.
Proof.
  destruct (remove_invalid_sentences raw t1 t2 _ _ _) as [filtered|e];
    [|done].
  destruct (build_loaders_cases config filtered t1 t2 fs)
    as [(e & -> & _)|(loaders & -> & _)]; [done|].
  cbn [fst]. rewrite saved_tokenizers_app. simpl. by rewrite app_nil_r.
Qed.

(** C2: once the three splits exist, the last stage of [preprocess]
    decides on the two pad ids before it builds the collator.  If they
    differ it raises [AssertionError]: no collator is built and nothing is
    written.  If they agree, the collator is padded with the common id:
    the stage saves the three loaders, each carrying that collator
    (unless torch rejects a loader, and then again nothing is written).
    In a whole run of [preprocess] that returns, the two tokenizers it
    saved agree on the pad id and the loaders it saved are padded with
    it. *)
Theorem pad_id_assertion (config : Config)
    (raw : gmap string (list (gmap string string)))
    (src_tokenizer target_tokenizer : Tokenizer) fs :
  is_Some (raw !! "train") ->
  is_Some (raw !! "validation") ->
  is_Some (raw !! "test") ->
  (token_to_id src_tokenizer PAD_TOKEN
     ≠ token_to_id target_tokenizer PAD_TOKEN ->
   build_loaders config raw src_tokenizer target_tokenizer fs
     = (fs, Raise AssertionError)) ∧
  (token_to_id src_tokenizer PAD_TOKEN
     = token_to_id target_tokenizer PAD_TOKEN ->
   (loaders_accepted config raw = false ∧
    build_loaders config raw src_tokenizer target_tokenizer fs
      = (fs, Raise ValueError)) ∨
   (loaders_accepted config raw = true ∧
    ∃ loaders,
      build_loaders config raw src_tokenizer target_tokenizer fs =
        (fs ++ [Mkdir (checkpoints_dir config);
                TorchSave (path_div (checkpoints_dir config)
                                    (data_loaders_basename config)) loaders],
         Ok ()) ∧
      padded_with (token_to_id src_tokenizer PAD_TOKEN) loaders ∧
      padded_with (token_to_id target_tokenizer PAD_TOKEN) loaders)) ∧
  (∀ loaded fs0 fs1,
     preprocess config loaded fs0 = (fs1, Ok ()) ->
     ∃ before p1 t1 p2 t2 p loaders,
       fs1 = fs0 ++ before ++ [TorchSave p loaders] ∧
       saved_tokenizers before = [(p1, t1); (p2, t2)] ∧
       token_to_id t1 PAD_TOKEN = token_to_id t2 PAD_TOKEN ∧
       padded_with (token_to_id t1 PAD_TOKEN) loaders).
Proof.
  intros Htr Hva Hte.
  assert (Hrun : ∀ loaded fs0 fs1,
    preprocess config loaded fs0 = (fs1, Ok ()) ->
    ∃ before p1 t1 p2 t2 p loaders,
      fs1 = fs0 ++ before ++ [TorchSave p loaders] ∧
      saved_tokenizers before = [(p1, t1); (p2, t2)] ∧
      token_to_id t1 PAD_TOKEN = token_to_id t2 PAD_TOKEN ∧
      padded_with (token_to_id t1 PAD_TOKEN) loaders).
  { intros loaded fs0 fs1 Hok.
    pose proof (preprocess_run_shape config loaded fs0) as Hs.
    rewrite Hok in Hs. simpl in Hs. inversion Hs; subst.
    eexists [_; _; _; _; _], _, _, _, _, _, _. split; [done|].
    split; [reflexivity|]. done. }
  destruct (build_loaders_cases config raw src_tokenizer target_tokenizer fs)
    as [(e & He & Hwhy)|(loaders & Hl & Heq & Hacc & Hpad)].
  - destruct (Hwhy Htr Hva Hte) as [[-> Hne]|(-> & Heq & Hrej)].
    + split_and!; [done| |done]. intros Heq. done.
    + split_and!; [intros Hne; done| |done]. intros _. by left.
  - split_and!; [intros Hne; done| |done].
    intros _. right. split; [done|].
    exists loaders. split_and!; [done..|]. by rewrite <- Heq.
Qed.

Lemma build_vocab_elem (tokens : list string) w i :
  build_vocab tokens !! w = Some i -> w ∈ tokens.
Proof.
  unfold build_vocab.
  assert (∀ (k : nat) (m : gmap string nat),
    foldl (λ m iw, <[iw.2 := iw.1]> m) m
          (zip (seq k (length tokens)) tokens) !! w = Some i ->
    w ∈ tokens ∨ m !! w = Some i) as Hgo.
  { induction tokens as [|a l IH]; intros k m; simpl; [by right|].
    intros [Hl|Hm]%IH; [left; by right|].
    destruct (decide (a = w)) as [->|Hne]; [left; by left|].
    rewrite lookup_insert_ne in Hm by done. by right. }
  intros [?|Hm]%Hgo; [done|by rewrite lookup_empty in Hm].
Qed.

Lemma trained_vocab_elem sentences min_freq w i :
  token_to_id (train_from_iterator sentences min_freq special_tokens UNK_TOKEN)
              w = Some i ->
  w ∈ special_tokens ∨
  (w ∈ corpus_words sentences ∧
   (min_freq ≤ count (corpus_words sentences) w)%nat).
Proof.
  unfold token_to_id, train_from_iterator. cbn [vocab].
  fold (corpus_words sentences). fold (ranked_words sentences min_freq).
  intros Hw%build_vocab_elem.
  apply (subseteq_take vocab_size), elem_of_app in Hw as [?|Hw]; [by left|].
  right. apply elem_of_ranked_words in Hw. tauto.
Qed.

(** Where the tokenizers a run saves come from. *)
Definition trained_on_train (config : Config)
    (loaded : gmap string (list (gmap string string)))
    (tok : Tokenizer) : Prop :=
  ∃ raw train lang sentences,
    splits_stage config loaded = Ok raw ∧
    raw !! "train" = Some train ∧
    create_iter_from_dataset train lang = Ok sentences ∧
    tok = train_from_iterator sentences 2 special_tokens UNK_TOKEN.

Lemma preprocess_saved_from_train (config : Config) loaded fs :
  ∃ new,
    saved_tokenizers (preprocess config loaded fs).1
      = saved_tokenizers fs ++ new ∧
    Forall (λ pt, trained_on_train config loaded pt.2) new.
Proof.
  rewrite preprocess_splits. unfold trained_on_train.
  destruct (splits_stage config loaded) as [raw|e];
    [|exists []; by rewrite app_nil_r].
  destruct (raw !! "train") as [train|] eqn:Htrain;
    [|exists []; by rewrite app_nil_r].
  destruct (tokenize_cases train (src_lang config) config 2 fs)
    as [[e ->]|[[e ->]|(n1 & s1 & _ & Hs1 & ->)]].
  - exists []. by rewrite app_nil_r.
  - exists []. cbn [fst]. rewrite saved_tokenizers_app. split; [done|constructor].
  - set (t1 := train_from_iterator s1 2 special_tokens UNK_TOKEN).
    assert (H1 : ∃ raw0 train0 lang sentences,
      Ok raw = Ok raw0 ∧ raw0 !! "train" = Some train0 ∧
      create_iter_from_dataset train0 lang = Ok sentences ∧
      t1 = train_from_iterator sentences 2 special_tokens UNK_TOKEN)
      by by exists raw, train, (src_lang config), s1.
    destruct (tokenize_cases train (target_lang config) config 2
                (fs ++ [Mkdir (checkpoints_dir config);
                        SaveTokenizer (path_div (checkpoints_dir config) n1) t1]))
      as [[e ->]|[[e ->]|(n2 & s2 & _ & Hs2 & ->)]].
    + eexists [_]. cbn [fst]. rewrite saved_tokenizers_app.
      split; [reflexivity|]. by constructor.
    + eexists [_]. cbn [fst]. rewrite !saved_tokenizers_app.
      split; [simpl; by rewrite app_nil_r|]. by constructor.
    + set (t2 := train_from_iterator s2 2 special_tokens UNK_TOKEN).
      rewrite saved_after_vocabs, !saved_tokenizers_app.
      eexists [_; _]. split; [by rewrite <- app_assoc|].
      constructor; [done|]. constructor; [|done].
      by exists raw, train, (target_lang config), s2.
Qed.

(** C1: two runs under one configuration, on corpora with the same
    train split (and a test split in both or in neither), write the same
    tokenizer files with the same vocabularies, whatever the validation
    and test splits hold.  Every tokenizer a run writes was trained on
    the sentences of its train split, and each of its tokens is a
    sentinel or a word that occurs at least twice in those sentences. *)
Theorem vocabulary_isolation (config : Config)
    (d1 d2 : gmap string (list (gmap string string))) fs :
  d1 !! "train" = d2 !! "train" ->
  (is_Some (d1 !! "test") <-> is_Some (d2 !! "test")) ->
  saved_tokenizers (preprocess config d1 fs).1
    = saved_tokenizers (preprocess config d2 fs).1 ∧
  ∃ new,
    saved_tokenizers (preprocess config d1 fs).1 = saved_tokenizers fs ++ new ∧
    ∀ p tok w i,
      (p, tok) ∈ new -> token_to_id tok w = Some i ->
      w ∈ special_tokens ∨
      ∃ raw train lang sentences,
        splits_stage config d1 = Ok raw ∧
        raw !! "train" = Some train ∧
        create_iter_from_dataset train lang = Ok sentences ∧
        w ∈ corpus_words sentences ∧
        (2 ≤ count (corpus_words sentences) w)%nat.
Proof.
  intros Ht Hte. split.
  - rewrite !preprocess_splits.
    pose proof (splits_stage_agree config d1 d2 Ht Hte) as Hsp.
    destruct (splits_stage config d1) as [o1|],
             (splits_stage config d2) as [o2|]; try done.
    rewrite Hsp. destruct (o2 !! "train") as [train|]; [|done].
    destruct (tokenize train (src_lang config) config 2 fs) as [fs1 [t1|]];
      [|done].
    destruct (tokenize train (target_lang config) config 2 fs1)
      as [fs2 [t2|]]; [|done].
    by rewrite !saved_after_vocabs.
  - destruct (preprocess_saved_from_train config d1 fs) as (new & Hnew & Hfrom).
    exists new. split; [done|].
    intros p tok w i Hin Hid. rewrite Forall_forall in Hfrom.
    pose proof (Hfrom _ Hin) as Hf. simpl in Hf.
    destruct Hf as (raw & train & lang & sentences & Hr & Htr & Hs & ->).
    apply trained_vocab_elem in Hid as [?|[? ?]]; [by left|right].
    by exists raw, train, lang, sentences.
Qed.


Section WithLaws.
Context {LL : LibraryLaws}.







End WithLaws.
End Facts.

(** *** The pipeline run on a small instance *)

(** Rates are percentages, the generator reverses, the pre-tokenizer
    cuts at white space, every word is one token, and a base name is
    completed by the language code. *)
Definition word_ids (t : Tokenizer) (text : string) : list nat :=
  (λ w, default (default 0%nat (vocab t !! unk_token t)) (vocab t !! w))
    <$> String.words text.

#[local] Instance small_library : Library := {|
  rate := nat;
  rate_in_unit v := bool_decide (0 < v < 100)%nat;
  ceil_mul v n := ((v * n + 99) `div` 100)%nat;
  permutation _ n := reverse (seq 0 n);
  pre_tokenize := String.words;
  encode := word_ids;
  str_format basename lang := Ok (basename +:+ lang);
  loader_accepts n batch_size shuffle :=
    bool_decide (0 < batch_size) && (negb shuffle || bool_decide (0 < n)%nat);
|}.

#[local] Instance small_library_laws : LibraryLaws.
Proof. split. intros seed n. apply reverse_Permutation. Qed.

#[local] Instance bracketed : Constants := {|
  PAD_TOKEN := "<PAD>"; SOS_TOKEN := "<SOS>";
  EOS_TOKEN := "<EOS>"; UNK_TOKEN := "<UNK>";
|}.

#[local] Instance no_cleanup : Normalizer := {|
  normalize_pair _ _ row := row;
|}.

Definition pair (en vi : string) : gmap string string :=
  <["vi" := vi]> (<["en" := en]> ∅).

Definition small_config (max : option Z) (val : option nat) : Config := {|
  dataset_path := "corpus"; dataset_subset := "en-vi";
  dataset_cache_dir := "cache";
  max_train_set_size := max; val_size_rate := val; seed := 42;
  src_lang := "en"; target_lang := "vi"; seq_length := 6;
  train_batch_size := 2; eval_batch_size := 2;
  checkpoints_dir := "checkpoints"; tokenizer_basename := "tokenizer_";
  data_loaders_basename := "data_loaders.pt";
|}.

Definition train_rows : list (gmap string string) :=
  [pair "a b" "c d"; pair "a a a a a a" "c"; pair "a b b" "c d d"].

(** A corpus without a validation split, and two with one. *)
Definition two_splits : gmap string (list (gmap string string)) :=
  <["test" := [pair "a" "c"]]> (<["train" := train_rows]> ∅).

Definition three_splits : gmap string (list (gmap string string)) :=
  <["validation" := [pair "b" "d"]]> two_splits.

Definition other_evaluation : gmap string (list (gmap string string)) :=
  <["validation" := [pair "x x" "y y"]]>
    (<["test" := [pair "z z z" "z z"]]> (<["train" := train_rows]> ∅)).

Lemma vocabulary_isolation_witness :
  saved_tokenizers (preprocess (small_config None None) three_splits []).1
    = saved_tokenizers
        (preprocess (small_config None None) other_evaluation []).1.
Proof.
  apply (vocabulary_isolation (small_config None None)
           three_splits other_evaluation []).
  - vm_compute. reflexivity.
  - split; intros _; eexists; vm_compute; reflexivity.
Defined.

Definition en_tokenizer : Tokenizer :=
  train_from_iterator ["a b"; "a a a a a a"; "a b b"] 2 special_tokens
                      UNK_TOKEN.

Definition shifted_tokenizer : Tokenizer :=
  {| vocab := <[PAD_TOKEN := 7%nat]> ∅; unk_token := UNK_TOKEN |}.

Lemma pad_id_assertion_witness :
  build_loaders (small_config None None) three_splits
                en_tokenizer shifted_tokenizer []
    = ([], Raise AssertionError) ∧
  ∃ loaders,
    build_loaders (small_config None None) three_splits
                  en_tokenizer en_tokenizer []
      = ([Mkdir "checkpoints";
          TorchSave (path_div "checkpoints" "data_loaders.pt") loaders],
         Ok ()) ∧
    padded_with (Some 0%nat) loaders.
Proof.
  split.
  - apply (pad_id_assertion (small_config None None) three_splits
             en_tokenizer shifted_tokenizer []);
      [eexists; vm_compute; reflexivity..|].
    vm_compute. discriminate.
  - destruct (pad_id_assertion (small_config None None) three_splits
                en_tokenizer en_tokenizer [])
      as (_ & Hsame & _); [eexists; vm_compute; reflexivity..|].
    destruct (Hsame eq_refl) as [[Hrej _]|(_ & loaders & Hl & Hp & _)];
      [vm_compute in Hrej; discriminate|].
    exists loaders. split; [exact Hl|exact Hp].
Defined.







End PreprocessFacts.

(** ** More on the metric aggregator *)

Module StatsMore.
Import Stats StatsFacts.

Section Facts.
Context `{NU : Numeric}.

(** *** Masks and counters *)

Lemma broadcast_same_length (a b : list Z) :
  length a = length b -> broadcast a b = Some (zip a b).
Proof. intros Hl. unfold broadcast. by rewrite Hl, Nat.eqb_refl. Qed.

Lemma bool_index_filter (pad : option Z) (a : list Z) :
  bool_index a (ne_pad pad <$> a)
    = Some (filter (λ x, ne_pad pad x = true) a).
Proof.
  unfold bool_index. rewrite length_fmap, Nat.eqb_refl. f_equal.
  induction a as [|x a IH]; [done|].
  cbn [fmap list_fmap zip zip_with]. rewrite !filter_cons. cbn [snd].
  destruct (decide (ne_pad pad x = true)); cbn [fmap list_fmap fst].
  - f_equal. exact IH.
  - exact IH.
Qed.

Lemma bool_index_length (a b : list Z) (mask : list bool) p t :
  bool_index a mask = Some p -> bool_index b mask = Some t ->
  length p = length t.
Proof.
  unfold bool_index.
  destruct (Nat.eqb_spec (length a) (length mask)) as [Ha|]; [|done].
  destruct (Nat.eqb_spec (length b) (length mask)) as [Hb|]; [|done].
  intros [= <-] [= <-]. rewrite !length_fmap.
  revert a b Ha Hb. induction mask as [|m mask IH]; intros [|x a] [|y b];
    simpl; try done.
  intros [= Ha] [= Hb]. rewrite !filter_cons. cbn [snd].
  destruct (decide (m = true)); cbn [length]; by rewrite (IH a b).
Qed.

Lemma bool_index_Some_length (a : list Z) (mask : list bool) p :
  bool_index a mask = Some p -> length a = length mask.
Proof.
  unfold bool_index.
  by destruct (Nat.eqb_spec (length a) (length mask)).
Qed.

Lemma count_true_cons (b : bool) (l : list bool) :
  count_true (b :: l) = (if b then 1 else 0) + count_true l.
Proof.
  unfold count_true. rewrite filter_cons.
  destruct b; simpl; [|done].
  destruct (decide (true = true)); [|done]. cbn [length]. lia.
Qed.



Lemma count_true_all_pad (pad : Z) (b : list Z) :
  Forall (λ x, x = pad) b -> count_true (ne_pad (Some pad) <$> b) = 0.
Proof.
  induction 1 as [|x b -> _ IH]; [done|].
  cbn [fmap list_fmap]. rewrite count_true_cons. simpl.
  rewrite Z.eqb_refl. simpl. exact IH.
Qed.

Lemma bool_index_is_Some (a : list Z) (mask : list bool) :
  is_Some (bool_index a mask) <-> length a = length mask.
Proof.
  unfold bool_index.
  destruct (Nat.eqb_spec (length a) (length mask)); split; try done;
    by intros [? [=]].
Qed.

Lemma update_step_outcome (s : Stats) (h : gmap loc (list (list Z)))
    (l : float) (yp yt : array) s' h' r :
  update_step s h l yp yt = (s', h', r) ->
  (r = None <-> length (to_numpy yp) = length (to_numpy yt)) ∧
  (r ≠ None -> h' = h) ∧
  num_batchs s' = num_batchs s + 1 ∧
  loss s' = float_add (loss s) l.
Proof.
  unfold update_step. intros Hs.
  destruct (broadcast (to_numpy yp) (to_numpy yt)) as [pairs|] eqn:Hb.
  - cbn [ignore_padding set_counters] in Hs.
    destruct (ignore_padding s).
    + rewrite (bool_index_filter _ (to_numpy yt)) in Hs.
      destruct (bool_index (to_numpy yp) _) as [p|] eqn:Hp.
      * assert (length (to_numpy yp) = length (to_numpy yt)) as Hl.
        { apply bool_index_Some_length in Hp. by rewrite length_fmap in Hp. }
        simplify_eq/=. done.
      * assert (length (to_numpy yp) ≠ length (to_numpy yt)) as Hl.
        { intros Hl. destruct (proj2 (bool_index_is_Some (to_numpy yp)
            (ne_pad (pad_token_id s) <$> to_numpy yt))) as [? ?];
            [by rewrite length_fmap|congruence]. }
        simplify_eq/=. split_and!; try done.
    + destruct (Nat.eqb_spec (length (to_numpy yp)) (length (to_numpy yt)));
        simplify_eq/=; split_and!; try done.
  - assert (length (to_numpy yp) ≠ length (to_numpy yt)) as Hl.
    { intros Hl. by rewrite (broadcast_same_length _ _ Hl) in Hb. }
    simplify_eq/=. split_and!; try done.
Qed.


(** *** Counters *)




(** *** Buffers *)

Lemma update_step_appends (s : Stats) (h : gmap loc (list (list Z)))
    (l : float) (yp yt : array) s' h' :
  update_step s h l yp yt = (s', h', None) ->
  ∃ p t,
    h' = append_buf (labels s) t (append_buf (pred s) p h) ∧
    length p = length t ∧
    (ignore_padding s = false -> p = to_numpy yp ∧ t = to_numpy yt) ∧
    (ignore_padding s = true ->
       bool_index (to_numpy yp) (ne_pad (pad_token_id s) <$> to_numpy yt)
         = Some p ∧
       t = filter (λ x, ne_pad (pad_token_id s) x = true) (to_numpy yt)).
Proof.
  intros Hs.
  destruct (update_step_outcome _ _ _ _ _ _ _ _ Hs) as ([Hl _] & _).
  specialize (Hl eq_refl). revert Hs.
  unfold update_step. rewrite (broadcast_same_length _ _ Hl).
  cbn [ignore_padding set_counters].
  destruct (ignore_padding s).
  - rewrite (bool_index_filter _ (to_numpy yt)).
    destruct (bool_index (to_numpy yp) _) as [p|] eqn:Hp; [|done].
    intros [= _ <-]. eexists _, _. split_and!; try done.
    eapply bool_index_length; [exact Hp|apply bool_index_filter].
  - rewrite Hl, Nat.eqb_refl. intros [= _ <-].
    eexists _, _. split_and!; done.
Qed.

(** The two buffers are different lists and hold, position by position,
    arrays of one length. *)
Definition aligned (s : Stats) (h : gmap loc (list (list Z))) : Prop :=
  pred s ≠ labels s ∧
  ∃ bp bl, h !! pred s = Some bp ∧ h !! labels s = Some bl ∧
           Forall2 (λ p t : list Z, length p = length t) bp bl.

Lemma update_step_aligned (s : Stats) h l yp yt s' h' r :
  aligned s h -> update_step s h l yp yt = (s', h', r) -> aligned s' h'.
Proof.
  intros (Hne & bp & bl & Hp & Hl & Hf) Hs.
  destruct (update_step_fields _ _ _ _ _ _ _ _ Hs) as (_ & Hps & Hls).
  unfold aligned. rewrite Hps, Hls. split; [done|].
  destruct r as [e|].
  - destruct (update_step_outcome _ _ _ _ _ _ _ _ Hs) as (_ & Hh & _).
    rewrite Hh by done. by exists bp, bl.
  - apply update_step_appends in Hs as (p & t & -> & Hlen & _).
    exists (bp ++ [p]), (bl ++ [t]). unfold append_buf. split_and!.
    + by rewrite lookup_alter_ne, lookup_alter_eq, Hp.
    + by rewrite lookup_alter_eq, lookup_alter_ne, Hl.
    + apply Forall2_app; [done|]. by constructor.
Qed.

Lemma aligned_concat (bp bl : list (list Z)) :
  Forall2 (λ p t : list Z, length p = length t) bp bl ->
  length (concat bp) = length (concat bl).
Proof.
  induction 1 as [|p t bp bl Hl _ IH]; [done|].
  simpl. rewrite !length_app. lia.
Qed.

(** X3: buffers that are aligned stay aligned through any calls of
    [update_step], returning or raising; so the two arrays [compute]
    concatenates from them have the same length. *)
Theorem buffers_stay_aligned calls : ∀ (s : Stats) h s' h',
  aligned s h ->
  update_steps s h calls = (s', h') ->
  aligned s' h' ∧
  ∀ y_pred y_true,
    concatenate (default [] (h' !! pred s')) = Ok y_pred ->
    concatenate (default [] (h' !! labels s')) = Ok y_true ->
    length y_pred = length y_true.
Proof.
  assert (Hcat : ∀ (s : Stats) h, aligned s h ->
    ∀ y_pred y_true,
      concatenate (default [] (h !! pred s)) = Ok y_pred ->
      concatenate (default [] (h !! labels s)) = Ok y_true ->
      length y_pred = length y_true).
  { intros s h (_ & bp & bl & -> & -> & Hf) y_pred y_true. simpl.
    unfold concatenate. destruct Hf as [|p t bp bl Hpt Hf]; [done|].
    intros [= <-] [= <-].
    apply (aligned_concat (p :: bp) (t :: bl)). by constructor. }
  induction calls as [|[[l p] t] calls IH]; intros s h s' h' Ha Hs.
  - simpl in Hs. simplify_eq. split; [done|]. by apply Hcat.
  - simpl in Hs. destruct (update_step s h l p t) as [[s1 h1] r] eqn:Hu.
    apply (update_step_aligned _ _ _ _ _ _ _ _ Ha) in Hu.
    by apply (IH _ _ _ _ Hu).
Qed.

Lemma zip_mask_filter (pad : option Z) (a b : list Z) :
  length a = length b ->
  fst <$> filter (λ q : Z * bool, q.2 = true) (zip a (ne_pad pad <$> b))
    = fst <$> filter (λ q : Z * Z, ne_pad pad q.2 = true) (zip a b).
Proof.
  revert b. induction a as [|x a IH]; intros [|y b]; try done.
  intros [= Hl]. cbn [fmap list_fmap zip zip_with]. rewrite !filter_cons.
  cbn [snd]. destruct (decide (ne_pad pad y = true));
    cbn [fmap list_fmap fst]; by rewrite (IH b Hl).
Qed.

(** X4: when padding is ignored, a call of [update_step] that returns
    appends the labels other than the pad id, in their order, and the
    predictions at the positions of those labels: the two appended
    arrays have one length and the pad id is not among the labels. *)
Theorem ignore_padding_drops_pad (s : Stats)
    (h : gmap loc (list (list Z))) (l : float) (yp yt : array) s' h' :
  ignore_padding s = true ->
  update_step s h l yp yt = (s', h', None) ->
  ∃ p t,
    h' = append_buf (labels s) t (append_buf (pred s) p h) ∧
    t = filter (λ x, ne_pad (pad_token_id s) x = true) (to_numpy yt) ∧
    p = fst <$> filter (λ q : Z * Z, ne_pad (pad_token_id s) q.2 = true)
                       (zip (to_numpy yp) (to_numpy yt)) ∧
    length p = length t ∧
    ∀ pad, pad_token_id s = Some pad -> pad ∉ t.
Proof.
  intros Hig Hs.
  destruct (update_step_outcome _ _ _ _ _ _ _ _ Hs) as ([Hl _] & _).
  specialize (Hl eq_refl).
  apply update_step_appends in Hs as (p & t & -> & Hlen & _ & Hmask).
  destruct (Hmask Hig) as [Hp ->]. eexists p, _. split_and!; try done.
  - unfold bool_index in Hp. rewrite length_fmap, Hl, Nat.eqb_refl in Hp.
    injection Hp as <-. by apply zip_mask_filter.
  - intros pad Hpad [Hne _]%list_elem_of_filter.
    rewrite Hpad in Hne. simpl in Hne. by rewrite Z.eqb_refl in Hne.
Qed.

(** *** [compute] and [report_to_tensorboard] *)

Lemma compute_zero_totals (s : Stats) (h : gmap loc (list (list Z))) :
  num_totals s = 0 -> ∃ e, compute s h = Raise e.
Proof.
  intros Hz. unfold compute, compute_on.
  destruct (concatenate _) as [yp|e]; simpl; [|eauto].
  destruct (concatenate _) as [yt|e]; simpl; [|eauto].
  destruct (num_batchs s =? 0); [eauto|].
  destruct (accuracy_score yt yp) as [acc|e]; simpl; [|eauto].
  destruct (precision_recall_fscore_support _ _ _ _) as [prf|e]; simpl;
    [|eauto].
  rewrite Hz. simpl. eauto.
Qed.

Lemma update_step_all_pad (s : Stats) h l yp yt s' h' r pad :
  pad_token_id s = Some pad ->
  Forall (λ x, x = pad) (to_numpy yt) ->
  update_step s h l yp yt = (s', h', r) ->
  num_totals s' = num_totals s ∧ pad_token_id s' = Some pad.
Proof.
  intros Hpad Hall. unfold update_step. rewrite Hpad.
  rewrite (count_true_all_pad _ _ Hall).
  intros Hs. repeat (case_match; simplify_eq/=); split; (done || lia).
Qed.

(** X5: if every label handed to [update_step] is the pad id, the count
    of labels stays at zero and [compute] raises, however many batches
    were recorded: its last print divides by that count. *)
Theorem all_padding_compute_raises nb l0 p lb beta avg pad ign (s : Stats)
    (h : gmap loc (list (list Z))) calls s' h' :
  __init__ nb l0 p lb beta avg (Some pad) ign = Ok s ->
  Forall (λ c : float * array * array,
            Forall (λ x, x = pad) (to_numpy c.2)) calls ->
  update_steps s h calls = (s', h') ->
  num_totals s' = 0 ∧ ∃ e, compute s' h' = Raise e.
Proof.
  intros Hi Hc Hs.
  assert (num_totals s = 0 ∧ pad_token_id s = Some pad) as [Hz Hpad].
  { unfold __init__ in Hi. destruct (ign && _); [done|]. by injection Hi as <-. }
  assert (num_totals s' = 0) as Hz'; [|split; [done|by apply compute_zero_totals]].
  clear Hi. revert s h Hs Hz Hpad.
  induction Hc as [|[[l c] t] calls Hall _ IH]; intros s h Hs Hz Hpad.
  - simpl in Hs. by simplify_eq.
  - simpl in Hs, Hall.
    destruct (update_step s h l c t) as [[s1 h1] r] eqn:Hu.
    apply (update_step_all_pad _ _ _ _ _ _ _ _ _ Hpad Hall) in Hu as [Ht Hp1].
    apply (IH _ _ Hs); [lia|done].
Qed.

Definition scalars (name : string) (step : Z) (prefix : string)
    (scores : Metrics) : list add_scalars_call :=
  (λ item, {| main_tag := prefix +:+ "/" +:+ item.1;
              tag_scalar_dict := [(name, item.2)];
              global_step := step |}) <$> items scores.

(** X6: [report_to_tensorboard] writes all five scalars or none: when
    [compute] raises, the exception comes through and the writer is as
    before; otherwise the writer receives, in this order, the tags
    loss, acc, precision, recall and f_beta under the prefix.  On an
    object fresh from the constructor it always raises and writes
    nothing. *)
Theorem report_all_or_nothing (s : Stats) (h : gmap loc (list (list Z)))
    (writer : list add_scalars_call) (name : string) (step : Z)
    (prefix : string) :
  (∀ e, compute s h = Raise e ->
        report_to_tensorboard s h writer name step prefix
          = (writer, Raise e)) ∧
  (∀ scores, compute s h = Ok scores ->
        report_to_tensorboard s h writer name step prefix
          = (writer ++ scalars name step prefix scores, Ok ()) ∧
        main_tag <$> scalars name step prefix scores
          = (λ m, prefix +:+ "/" +:+ m)
              <$> ["loss"; "acc"; "precision"; "recall"; "f_beta"]) ∧
  (∀ nb l0 p lb beta avg pad ign,
        __init__ nb l0 p lb beta avg pad ign = Ok s ->
        ∃ e, report_to_tensorboard s h writer name step prefix
             = (writer, Raise e)).
Proof.
  unfold report_to_tensorboard. split_and!.
  - by intros e ->.
  - intros scores ->. split; [|done].
    unfold scalars, items. simpl. by rewrite <- !app_assoc.
  - intros nb l0 p lb beta avg pad ign Hi.
    destruct (compute_zero_totals s h) as [e ->]; [|by exists e].
    unfold __init__ in Hi. destruct (ign && _); [done|]. by injection Hi as <-.
Qed.

(** X17: [update_step] touches no list but the two buffers of its own
    object: an object built with lists of its own leaves the shared
    default lists, and every other list, as they were. *)
Theorem update_step_frame (s : Stats) (h : gmap loc (list (list Z)))
    (l : float) (yp yt : array) (k : loc) :
  k ≠ pred s -> k ≠ labels s ->
  (update_step s h l yp yt).1.2 !! k = h !! k.
Proof.
  intros Hp Hl.
  destruct (update_step s h l yp yt) as [[s' h'] [e|]] eqn:Hs; cbn [fst snd].
  - destruct (update_step_outcome _ _ _ _ _ _ _ _ Hs) as (_ & Hh & _).
    by rewrite Hh.
  - apply update_step_appends in Hs as (p & t & -> & _).
    unfold append_buf. by rewrite !lookup_alter_ne.
Qed.

End Facts.

(** *** Runs on the exact instance *)

#[local] Existing Instance exact_numeric.

(** [Stats(pad_token_id=0, ignore_padding=True)] *)
Definition masked_obj : @Stats exact_numeric :=
  {| num_batchs := 0; loss := 0; pred := default_pred;
     labels := default_labels; f_score_beta := 0; average := "weighted";
     ignore_padding := true; pad_token_id := Some 0;
     num_matches := 0; num_totals := 0 |}.

Definition one_batch : list (Z * array * array) :=
  [(5, NdArray [1; 2; 0], Tensor [1; 3; 0])].

Definition padding_only : list (Z * array * array) :=
  [(5, NdArray [1; 2], NdArray [0; 0]); (7, Tensor [0], Tensor [0])].


Lemma buffers_stay_aligned_witness :
  aligned (@update_steps exact_numeric masked_obj class_heap
             (one_batch ++ [(1, NdArray [4], NdArray [4; 4])])).1
          (@update_steps exact_numeric masked_obj class_heap
             (one_batch ++ [(1, NdArray [4], NdArray [4; 4])])).2.
Proof.
  apply (@buffers_stay_aligned exact_numeric
           (one_batch ++ [(1, NdArray [4], NdArray [4; 4])])
           masked_obj class_heap).
  - split; [vm_compute; discriminate|].
    exists [], []. split_and!; [vm_compute; reflexivity..|constructor].
  - vm_compute. reflexivity.
Defined.

Lemma ignore_padding_drops_pad_witness :
  ∃ p t,
    (@update_step exact_numeric masked_obj class_heap 5
       (NdArray [1; 2; 0]) (Tensor [1; 3; 0])).1.2
      = append_buf default_labels t (append_buf default_pred p class_heap) ∧
    t = [1; 3] ∧ p = [1; 2].
Proof.
  destruct (@ignore_padding_drops_pad exact_numeric masked_obj class_heap 5
              (NdArray [1; 2; 0]) (Tensor [1; 3; 0])
              (@update_step exact_numeric masked_obj class_heap 5
                 (NdArray [1; 2; 0]) (Tensor [1; 3; 0])).1.1
              (@update_step exact_numeric masked_obj class_heap 5
                 (NdArray [1; 2; 0]) (Tensor [1; 3; 0])).1.2)
    as (p & t & Hh & Ht & Hp & _); [reflexivity|vm_compute; reflexivity|].
  exists p, t. split; [exact Hh|]. split.
  - rewrite Ht. vm_compute. reflexivity.
  - rewrite Hp. vm_compute. reflexivity.
Defined.

Lemma all_padding_compute_raises_witness :
  num_totals
    (@update_steps exact_numeric masked_obj class_heap padding_only).1 = 0 ∧
  compute (@update_steps exact_numeric masked_obj class_heap padding_only).1
          (@update_steps exact_numeric masked_obj class_heap padding_only).2
    = Raise ZeroDivisionError.
Proof.
  destruct (@all_padding_compute_raises exact_numeric 0 0 None None 0
              "weighted" 0 true masked_obj class_heap padding_only
              (@update_steps exact_numeric masked_obj class_heap
                 padding_only).1
              (@update_steps exact_numeric masked_obj class_heap
                 padding_only).2) as [Hz _].
  - vm_compute. reflexivity.
  - repeat constructor.
  - vm_compute. reflexivity.
  - split; [exact Hz|]. vm_compute. reflexivity.
Defined.

(** [Stats(pred=[], labels=[])] with two new lists. *)
Definition own_heap : gmap loc (list (list Z)) :=
  <[3%nat := []]> (<[2%nat := []]> class_heap).

Definition own_obj : @Stats exact_numeric :=
  {| num_batchs := 0; loss := 0; pred := 2%nat; labels := 3%nat;
     f_score_beta := 0; average := "weighted";
     ignore_padding := false; pad_token_id := None;
     num_matches := 0; num_totals := 0 |}.

Lemma update_step_frame_witness :
  (@update_step exact_numeric own_obj own_heap 5
     (NdArray [1; 2]) (NdArray [1; 3])).1.2 !! default_pred = Some [] ∧
  (@update_step exact_numeric own_obj own_heap 5
     (NdArray [1; 2]) (NdArray [1; 3])).1.2 !! 2%nat = Some [[1; 2]].
Proof.
  split; [|vm_compute; reflexivity].
  rewrite (@update_step_frame exact_numeric own_obj own_heap 5
             (NdArray [1; 2]) (NdArray [1; 3]) default_pred).
  - vm_compute. reflexivity.
  - vm_compute. discriminate.
  - vm_compute. discriminate.
Defined.

End StatsMore.

(** ** More on the pipeline *)

Module PreprocessMore.
Import Preprocess PreprocessFacts.

Section Facts.
Context `{L : Library} {K : Constants} {N : Normalizer}.

(** *** Splits that are missing *)

Lemma splits_stage_Raise_preprocess (config : Config) loaded fs e :
  splits_stage config loaded = Raise e ->
  preprocess config loaded fs = (fs, Raise e).
Proof. intros He. by rewrite preprocess_splits, He. Qed.

(** X7: without a train split [preprocess] raises [KeyError] for
    ["train"], whatever the configuration, and writes nothing. *)
Theorem missing_train_split (config : Config)
    (loaded : gmap string (list (gmap string string))) fs :
  loaded !! "train" = None ->
  preprocess config loaded fs = (fs, Raise (KeyError "train")).
Proof.
  intros Hnone. rewrite preprocess_splits.
  unfold splits_stage, truncate_train, derive_validation.
  destruct (max_train_set_size config) as [m|].
  { by rewrite (getitem_None _ _ Hnone). }
  cbn [mbind result_bind rbind].
  destruct (val_size_rate config) as [v|].
  { by rewrite (getitem_None _ _ Hnone). }
  cbn [mbind result_bind rbind].
  unfold process_dataset_sentences. by rewrite lookup_fmap, Hnone.
Qed.

(** X8: with a validation rate configured, a corpus without a test
    split makes [preprocess] raise before anything is written. *)
Theorem missing_test_split (config : Config)
    (loaded : gmap string (list (gmap string string))) fs v :
  val_size_rate config = Some v ->
  loaded !! "test" = None ->
  ∃ e, preprocess config loaded fs = (fs, Raise e).
Proof.
  intros Hv Hnone.
  assert (∃ e, splits_stage config loaded = Raise e) as [e He];
    [|exists e; by apply splits_stage_Raise_preprocess].
  unfold splits_stage.
  assert (∀ raw : gmap string (list (gmap string string)),
    raw !! "test" = None -> ∃ e, derive_validation config raw = Raise e)
    as Hderive.
  { intros raw Hraw. unfold derive_validation. rewrite Hv.
    destruct (getitem raw "train") as [train|e]; [|by exists e].
    cbn [mbind result_bind rbind].
    destruct (train_test_split train v (seed config)) as [parts|e];
      [|by exists e].
    cbn [mbind result_bind rbind]. rewrite (getitem_None _ _ Hraw).
    unfold getitem. rewrite lookup_insert_eq. by eexists. }
  destruct (truncate_train config loaded) as [raw|e] eqn:Ht; [|by exists e].
  cbn [mbind result_bind rbind].
  destruct (Hderive raw) as [e ->]; [|by exists e].
  revert Ht. unfold truncate_train.
  destruct (max_train_set_size config) as [m|]; [|by intros [= <-]].
  destruct (getitem loaded "train") as [train|]; [|done].
  cbn [mbind result_bind rbind].
  destruct (m <? _); [|by intros [= <-]].
  destruct (shuffle train (seed config)) as [sh|]; [|done].
  cbn [mbind result_bind rbind].
  destruct (select_range sh m); [|done].
  intros [= <-]. by rewrite lookup_insert_ne.
Qed.

Lemma truncate_train_other (config : Config) raw out k :
  truncate_train config raw = Ok out -> k ≠ "train" ->
  out !! k = raw !! k.
Proof.
  unfold truncate_train.
  destruct (max_train_set_size config) as [m|]; [|by intros [= <-]].
  destruct (getitem raw "train") as [train|]; [|done].
  cbn [mbind result_bind rbind].
  destruct (m <? _); [|by intros [= <-]].
  destruct (shuffle train (seed config)) as [sh|]; [|done].
  cbn [mbind result_bind rbind].
  destruct (select_range sh m); [|done].
  intros [= <-] Hk. by rewrite lookup_insert_ne.
Qed.

Lemma dict_sequence_missing {A} (d : gmap string (result A)) out k :
  dict_sequence d = Ok out -> d !! k = None -> out !! k = None.
Proof.
  unfold dict_sequence. intros Hd Hk.
  assert (out = omap (λ r : result A,
                        match r with Ok a => Some a | Raise _ => None end) d)
    as ->.
  { repeat (case_match; simplify_eq/=); done. }
  by rewrite lookup_omap, Hk.
Qed.

Lemma build_loaders_missing (config : Config) raw t1 t2 fs k :
  k ∈ ["train"; "validation"; "test"] -> raw !! k = None ->
  build_loaders config raw t1 t2 fs = (fs, Raise (KeyError k)) ∨
  ∃ k', build_loaders config raw t1 t2 fs = (fs, Raise (KeyError k')).
Proof.
  intros Hk Hnone. unfold build_loaders, mbind, IO_bind, lift, getitem.
  destruct (raw !! "train") eqn:Htr; [|right; by eexists].
  destruct (raw !! "validation") eqn:Hva; [|right; by eexists].
  destruct (raw !! "test") eqn:Hte; [|right; by eexists].
  repeat (apply elem_of_cons in Hk as [->|Hk]; [congruence|]).
  by apply elem_of_nil in Hk.
Qed.

(** X9: with no validation rate configured the corpus has to bring its
    own "validation" and "test" splits: if one of them is missing,
    [preprocess] never returns; it trains and saves what it can and then
    raises. *)
Theorem no_validation_source (config : Config)
    (loaded : gmap string (list (gmap string string))) fs k :
  val_size_rate config = None ->
  k = "validation" ∨ k = "test" ->
  loaded !! k = None ->
  ∃ e, (preprocess config loaded fs).2 = Raise e.
Proof.
  intros Hv Hk Hnone. rewrite preprocess_splits.
  destruct (splits_stage config loaded) as [raw|e] eqn:Hsp; [|by exists e].
  assert (raw !! k = None) as Hraw.
  { revert Hsp. unfold splits_stage, derive_validation. rewrite Hv.
    destruct (truncate_train config loaded) as [r|] eqn:Ht; [|done].
    cbn [mbind result_bind rbind]. intros [= <-].
    unfold process_dataset_sentences. rewrite lookup_fmap.
    rewrite (truncate_train_other _ _ _ k Ht) by (by destruct Hk as [->| ->]).
    by rewrite Hnone. }
  destruct (raw !! "train") as [train|]; [|by eexists].
  destruct (tokenize train (src_lang config) config 2 fs) as [fs1 [t1|e]];
    [|by exists e].
  destruct (tokenize train (target_lang config) config 2 fs1)
    as [fs2 [t2|e]]; [|by exists e].
  destruct (remove_invalid_sentences raw t1 t2 _ _ _) as [filtered|e] eqn:Hf;
    [|by exists e].
  assert (filtered !! k = None) as Hfk.
  { apply (dict_sequence_missing _ _ _ Hf). by rewrite lookup_fmap, Hraw. }
  destruct (build_loaders_missing config filtered t1 t2 fs2 k) as [->|[k' ->]];
    [by destruct Hk as [->| ->]; set_solver|done|by eexists..].
Qed.

(** *** What [tokenize] writes *)

(** X10: [tokenize] either raises on the file name and writes nothing,
    or creates the checkpoints directory and raises while reading the
    sentences, leaving no tokenizer file, or creates the directory,
    saves the tokenizer under [checkpoints_dir / basename.format(lang)]
    and returns the tokenizer it saved. *)
Theorem tokenize_writes (dataset : list (gmap string string)) (lang : string)
    (config : Config) (min_freq : nat) (fs : list FsEvent) :
  (∀ e, str_format (tokenizer_basename config) lang = Raise e ->
        tokenize dataset lang config min_freq fs = (fs, Raise e)) ∧
  (∀ basename e,
        str_format (tokenizer_basename config) lang = Ok basename ->
        create_iter_from_dataset dataset lang = Raise e ->
        tokenize dataset lang config min_freq fs
          = (fs ++ [Mkdir (checkpoints_dir config)], Raise e)) ∧
  (∀ fs' tok,
        tokenize dataset lang config min_freq fs = (fs', Ok tok) ->
        ∃ basename,
          str_format (tokenizer_basename config) lang = Ok basename ∧
          fs' = fs ++ [Mkdir (checkpoints_dir config);
                       SaveTokenizer
                         (path_div (checkpoints_dir config) basename) tok] ∧
          saved_tokenizers fs'
            = saved_tokenizers fs
                ++ [(path_div (checkpoints_dir config) basename, tok)]).
Proof.
  unfold tokenize, mbind, IO_bind, lift, emit. split_and!.
  - by intros e ->.
  - intros basename e -> ->. done.
  - intros fs' tok.
    destruct (str_format (tokenizer_basename config) lang) as [b|]; [|done].
    destruct (create_iter_from_dataset dataset lang) as [ss|]; [|done].
    cbn. intros [= <- <-]. exists b. split; [done|].
    rewrite <- app_assoc. split; [done|].
    rewrite saved_tokenizers_app. done.
Qed.

(** *** Ids *)

Lemma build_vocab_position (tokens : list string) w i :
  build_vocab tokens !! w = Some i -> tokens !! i = Some w.
Proof.
  unfold build_vocab.
  assert (∀ (k : nat) (m : gmap string nat),
    foldl (λ m iw, <[iw.2 := iw.1]> m) m
          (zip (seq k (length tokens)) tokens) !! w = Some i ->
    (∃ j, tokens !! j = Some w ∧ i = (k + j)%nat) ∨ m !! w = Some i) as Hgo.
  { induction tokens as [|a l IH]; intros k m; simpl; [by right|].
    intros [(j & Hj & ->)|Hm]%IH.
    - left. exists (S j). split; [done|lia].
    - destruct (decide (a = w)) as [->|Hne].
      + rewrite lookup_insert_eq in Hm. injection Hm as <-.
        left. exists 0%nat. split; [done|lia].
      + rewrite lookup_insert_ne in Hm by done. by right. }
  intros [(j & Hj & ->)|Hm]%Hgo; [done|by rewrite lookup_empty in Hm].
Qed.

(** X11: in a tokenizer that [tokenize] returns, two different tokens
    never share an id, and every id is below 30000, the default
    [vocab_size] of the trainer. *)
Theorem token_ids_unique (dataset : list (gmap string string))
    (lang : string) (config : Config) (min_freq : nat) fs fs' tok :
  tokenize dataset lang config min_freq fs = (fs', Ok tok) ->
  (∀ w1 w2 i, token_to_id tok w1 = Some i -> token_to_id tok w2 = Some i ->
              w1 = w2) ∧
  (∀ w i, token_to_id tok w = Some i -> (i < vocab_size)%nat) ∧
  unk_token tok = UNK_TOKEN.
Proof.
  intros Ht.
  destruct (tokenize_cases dataset lang config min_freq fs)
    as [[e He]|[[e He]|(b & ss & _ & _ & He)]]; rewrite He in Ht; try done.
  injection Ht as _ <-. unfold token_to_id, train_from_iterator. cbn [vocab unk_token].
  split_and!; [| |done].
  - intros w1 w2 i H1%build_vocab_position H2%build_vocab_position. congruence.
  - intros w i [_ Hi]%build_vocab_position%lookup_take_Some. done.
Qed.

(** *** A run that returns *)

(** The dictionary of loaders line 118 builds. *)
Definition loaders_of (config : Config) (t1 t2 : Tokenizer)
    (tr va te : list (gmap string string)) : gmap string DataLoader :=
  let wrap rows shuffle batch_size :=
    {| dl_dataset :=
         {| bd_rows := rows; bd_src_tokenizer := t1;
            bd_target_tokenizer := t2; bd_src_lang := src_lang config;
            bd_target_lang := target_lang config;
            bd_seq_length := seq_length config |};
       dl_batch_size := batch_size; dl_shuffle := shuffle;
       dl_collate_fn :=
         {| padding_value := token_to_id t1 PAD_TOKEN;
            added_features := ["encoder_input"; "decoder_input"; "labels"] |}
    |} in
  <["test" := wrap te false (eval_batch_size config)]>
    (<["validation" := wrap va false (eval_batch_size config)]>
       (<["train" := wrap tr true (train_batch_size config)]> ∅)).

Lemma build_loaders_Ok (config : Config) raw t1 t2 fs fs' :
  build_loaders config raw t1 t2 fs = (fs', Ok ()) ->
  ∃ tr va te,
    raw !! "train" = Some tr ∧ raw !! "validation" = Some va ∧
    raw !! "test" = Some te ∧
    fs' = fs ++ [Mkdir (checkpoints_dir config);
                 TorchSave (path_div (checkpoints_dir config)
                                     (data_loaders_basename config))
                           (loaders_of config t1 t2 tr va te)].
Proof.
  unfold build_loaders, mbind, IO_bind, lift, emit, getitem, new_DataLoader.
  destruct (raw !! "train") as [tr|]; [|done].
  destruct (raw !! "validation") as [va|]; [|done].
  destruct (raw !! "test") as [te|]; [|done].
  destruct (decide _); [|done]. cbn [bd_rows].
  destruct (loader_accepts (length tr) _ true); [|done].
  destruct (loader_accepts (length va) _ false); [|done].
  destruct (loader_accepts (length te) _ false); [|done].
  cbn. intros [= <-]. exists tr, va, te. split_and!; try done.
  by rewrite <- app_assoc.
Qed.

Lemma preprocess_Ok_inv (config : Config) loaded fs fs' :
  preprocess config loaded fs = (fs', Ok ()) ->
  ∃ raw train n1 s1 n2 s2 filtered tr va te,
    splits_stage config loaded = Ok raw ∧
    raw !! "train" = Some train ∧
    str_format (tokenizer_basename config) (src_lang config) = Ok n1 ∧
    create_iter_from_dataset train (src_lang config) = Ok s1 ∧
    str_format (tokenizer_basename config) (target_lang config) = Ok n2 ∧
    create_iter_from_dataset train (target_lang config) = Ok s2 ∧
    remove_invalid_sentences raw
      (train_from_iterator s1 2 special_tokens UNK_TOKEN)
      (train_from_iterator s2 2 special_tokens UNK_TOKEN)
      (seq_length config - num_reserved_tokens)
      (src_lang config) (target_lang config) = Ok filtered ∧
    filtered !! "train" = Some tr ∧ filtered !! "validation" = Some va ∧
    filtered !! "test" = Some te ∧
    fs' = fs ++ [Mkdir (checkpoints_dir config);
                 SaveTokenizer (path_div (checkpoints_dir config) n1)
                   (train_from_iterator s1 2 special_tokens UNK_TOKEN);
                 Mkdir (checkpoints_dir config);
                 SaveTokenizer (path_div (checkpoints_dir config) n2)
                   (train_from_iterator s2 2 special_tokens UNK_TOKEN);
                 Mkdir (checkpoints_dir config);
                 TorchSave (path_div (checkpoints_dir config)
                                     (data_loaders_basename config))
                   (loaders_of config
                      (train_from_iterator s1 2 special_tokens UNK_TOKEN)
                      (train_from_iterator s2 2 special_tokens UNK_TOKEN)
                      tr va te)].
Proof.
  rewrite preprocess_splits.
  destruct (splits_stage config loaded) as [raw|]; [|done].
  destruct (raw !! "train") as [train|] eqn:Htrain; [|done].
  destruct (tokenize_cases train (src_lang config) config 2 fs)
    as [[e ->]|[[e ->]|(n1 & s1 & Hn1 & Hs1 & ->)]]; [done..|].
  destruct (tokenize_cases train (target_lang config) config 2
              (fs ++ [Mkdir (checkpoints_dir config);
                      SaveTokenizer (path_div (checkpoints_dir config) n1)
                        (train_from_iterator s1 2 special_tokens UNK_TOKEN)]))
    as [[e ->]|[[e ->]|(n2 & s2 & Hn2 & Hs2 & ->)]]; [done..|].
  destruct (remove_invalid_sentences raw _ _ _ _ _) as [filtered|] eqn:Hf;
    [|done].
  intros (tr & va & te & Htr & Hva & Hte & ->)%build_loaders_Ok.
  exists raw, train, n1, s1, n2, s2, filtered, tr, va, te.
  split_and!; try done. by rewrite <- !app_assoc.
Qed.

(** X12: a run of [preprocess] that returns has written, in this order,
    the source tokenizer and the target tokenizer under
    [tokenizer_basename.format(lang)] and the bundle under
    [data_loaders_basename], all in the checkpoints directory.  The
    bundle holds exactly the loaders "train", "validation" and "test";
    each wraps a dataset with the two tokenizers that were saved, the
    two languages and [seq_length]; the train loader shuffles and uses
    [train_batch_size], the other two do not shuffle and use
    [eval_batch_size]. *)
Theorem returned_run (config : Config)
    (loaded : gmap string (list (gmap string string))) fs fs' :
  preprocess config loaded fs = (fs', Ok ()) ->
  ∃ n1 t1 n2 t2 loaders,
    str_format (tokenizer_basename config) (src_lang config) = Ok n1 ∧
    str_format (tokenizer_basename config) (target_lang config) = Ok n2 ∧
    fs' = fs ++ [Mkdir (checkpoints_dir config);
                 SaveTokenizer (path_div (checkpoints_dir config) n1) t1;
                 Mkdir (checkpoints_dir config);
                 SaveTokenizer (path_div (checkpoints_dir config) n2) t2;
                 Mkdir (checkpoints_dir config);
                 TorchSave (path_div (checkpoints_dir config)
                                     (data_loaders_basename config)) loaders] ∧
    dom loaders = {["train"; "validation"; "test"]} ∧
    ∀ name dl, loaders !! name = Some dl ->
      bd_src_tokenizer (dl_dataset dl) = t1 ∧
      bd_target_tokenizer (dl_dataset dl) = t2 ∧
      bd_src_lang (dl_dataset dl) = src_lang config ∧
      bd_target_lang (dl_dataset dl) = target_lang config ∧
      bd_seq_length (dl_dataset dl) = seq_length config ∧
      dl_shuffle dl = bool_decide (name = "train") ∧
      dl_batch_size dl = (if bool_decide (name = "train")
                          then train_batch_size config
                          else eval_batch_size config).
Proof.
  intros (raw & train & n1 & s1 & n2 & s2 & filtered & tr & va & te & _ & _
          & Hn1 & _ & Hn2 & _ & _ & _ & _ & _ & ->)%preprocess_Ok_inv.
  eexists n1, _, n2, _, _. split_and!; [done..| |].
  - unfold loaders_of. rewrite !dom_insert_L, dom_empty_L. set_solver.
  - intros name dl Hdl. unfold loaders_of in Hdl.
    repeat (apply lookup_insert_Some in Hdl as [[<- <-]|[_ Hdl]]; [done|]).
    by rewrite lookup_empty in Hdl.
Qed.

Lemma filter_rows_kept (p : gmap string string -> result bool) ds out :
  filter_rows p ds = Ok out ->
  out `sublist_of` ds ∧ Forall (λ row, p row = Ok true) out.
Proof.
  revert out. induction ds as [|row ds IH]; intros out.
  { intros [= <-]. split; constructor. }
  unfold filter_rows in *. simpl.
  destruct (p row) as [b|] eqn:Hp; [|done]. cbn [mbind result_bind rbind].
  destruct (foldr _ _ ds) as [rest|]; [|done]. cbn [mbind result_bind rbind].
  destruct (IH rest eq_refl) as [Hsub Hall].
  intros [= <-]. destruct b.
  - split; [by constructor|]. by constructor.
  - split; [by constructor|done].
Qed.

Lemma dict_sequence_lookup {A} (d : gmap string (result A)) out k a :
  dict_sequence d = Ok out -> out !! k = Some a -> d !! k = Some (Ok a).
Proof.
  unfold dict_sequence. intros Hd Hk.
  assert (out = omap (λ r : result A,
                        match r with Ok a => Some a | Raise _ => None end) d)
    as ->.
  { repeat (case_match; simplify_eq/=); done. }
  rewrite lookup_omap in Hk. destruct (d !! k) as [[a'|]|]; by simplify_eq/=.
Qed.

(** X13: in the bundle of a run that returns, every loader holds pairs
    of the corresponding split, in their order, and every pair fits the
    budget: both of its sentences are present and neither has more than
    [seq_length - 2] tokens, so two slots remain for SOS and EOS. *)
Theorem saved_pairs_fit (config : Config)
    (loaded : gmap string (list (gmap string string))) fs fs' :
  preprocess config loaded fs = (fs', Ok ()) ->
  ∃ raw p t1 p' t2 loaders,
    splits_stage config loaded = Ok raw ∧
    saved_tokenizers (drop (length fs) fs') = [(p, t1); (p', t2)] ∧
    last fs' = Some (TorchSave (path_div (checkpoints_dir config)
                                         (data_loaders_basename config))
                               loaders) ∧
    ∀ name dl, loaders !! name = Some dl ->
      ∃ rows, raw !! name = Some rows ∧
        bd_rows (dl_dataset dl) `sublist_of` rows ∧
        Forall (λ row,
                  ∃ s t, row !! src_lang config = Some s ∧
                         row !! target_lang config = Some t ∧
                         Z.of_nat (length (encode t1 s)) + 2 ≤ seq_length config ∧
                         Z.of_nat (length (encode t2 t)) + 2 ≤ seq_length config)
               (bd_rows (dl_dataset dl)).
Proof.
  intros (raw & train & n1 & s1 & n2 & s2 & filtered & tr & va & te & Hraw & _
          & _ & _ & _ & _ & Hf & Htr & Hva & Hte & ->)%preprocess_Ok_inv.
  set (t1 := train_from_iterator s1 2 special_tokens UNK_TOKEN) in *.
  set (t2 := train_from_iterator s2 2 special_tokens UNK_TOKEN) in *.
  eexists raw, _, t1, _, t2, _. split_and!; [done| | |].
  - rewrite drop_app_length. reflexivity.
  - rewrite last_app. reflexivity.
  - assert (Hsplit : ∀ name rows', filtered !! name = Some rows' ->
      ∃ rows, raw !! name = Some rows ∧ rows' `sublist_of` rows ∧
        Forall (λ row,
                  ∃ s t, row !! src_lang config = Some s ∧
                         row !! target_lang config = Some t ∧
                         Z.of_nat (length (encode t1 s)) + 2 ≤ seq_length config ∧
                         Z.of_nat (length (encode t2 t)) + 2 ≤ seq_length config)
               rows').
    { intros name rows' Hn. unfold remove_invalid_sentences in Hf.
      apply (dict_sequence_lookup _ _ _ _ Hf) in Hn.
      rewrite lookup_fmap in Hn.
      destruct (raw !! name) as [rows|]; [|done]. injection Hn as Hn.
      apply filter_rows_kept in Hn as [Hsub Hall].
      exists rows. split_and!; [done..|].
      eapply Forall_impl; [exact Hall|]. intros row. unfold keeps, sentence, getitem.
      destruct (row !! src_lang config) as [s|]; [|done].
      destruct (row !! target_lang config) as [t|]; [|done].
      cbn [mbind result_bind rbind]. unfold num_reserved_tokens.
      intros [= [Hs Ht]%andb_true_iff].
      apply negb_true_iff, Z.ltb_ge in Hs, Ht.
      exists s, t. split_and!; [done..|lia|lia]. }
    intros name dl Hdl. unfold loaders_of in Hdl.
    repeat (apply lookup_insert_Some in Hdl as [[<- <-]|[_ Hdl]];
            [by apply Hsplit|]).
    by rewrite lookup_empty in Hdl.
Qed.

(** X14: when source and target language are one language code, a run
    that returns has written the same tokenizer twice to the same path. *)
Theorem same_language_one_tokenizer (config : Config)
    (loaded : gmap string (list (gmap string string))) fs fs' :
  src_lang config = target_lang config ->
  preprocess config loaded fs = (fs', Ok ()) ->
  ∃ p t, saved_tokenizers (drop (length fs) fs') = [(p, t); (p, t)].
Proof.
  intros Hlang (raw & train & n1 & s1 & n2 & s2 & filtered & tr & va & te & _
          & _ & Hn1 & Hs1 & Hn2 & Hs2 & _ & _ & _ & _ & ->)%preprocess_Ok_inv.
  rewrite <- Hlang in Hn2, Hs2.
  assert (n2 = n1) as -> by congruence. assert (s2 = s1) as -> by congruence.
  eexists _, _. rewrite drop_app_length. reflexivity.
Qed.

(** *** The validation step *)

(** X15: with a validation rate configured, the validation step reads
    the train and the test split only: a validation split or any other
    split the corpus came with has no part in its result. *)
Theorem derive_validation_reads_train_and_test (config : Config)
    (raw1 raw2 : gmap string (list (gmap string string))) v :
  val_size_rate config = Some v ->
  raw1 !! "train" = raw2 !! "train" ->
  raw1 !! "test" = raw2 !! "test" ->
  derive_validation config raw1 = derive_validation config raw2 ∧
  ∀ out k, derive_validation config raw1 = Ok out ->
           k ∉ ["train"; "validation"; "test"] -> out !! k = None.
Proof.
  intros Hv Htr Hte. split.
  - unfold derive_validation, getitem. by rewrite Hv, Htr, Hte.
  - intros out k. unfold derive_validation. rewrite Hv.
    destruct (getitem raw1 "train") as [train|]; [|done].
    cbn [mbind result_bind rbind].
    destruct (train_test_split train v (seed config)) as [parts|]; [|done].
    cbn [mbind result_bind rbind].
    unfold getitem. rewrite lookup_insert_eq. cbn [mbind result_bind rbind].
    destruct (raw1 !! "test") as [test|]; [|done].
    intros [= <-] Hk.
    rewrite lookup_insert_ne, lookup_insert_ne, lookup_delete_ne,
      lookup_insert_ne, lookup_insert_ne by set_solver.
    done.
Qed.

(** *** Truncation followed by the validation split *)



Section WithLaws.
Context {LL : LibraryLaws}.



End WithLaws.
End Facts.

(** *** Runs on the small instance *)

#[local] Existing Instance small_library.
#[local] Existing Instance small_library_laws.
#[local] Existing Instance bracketed.
#[local] Existing Instance no_cleanup.

Definition one_language_config : Config := {|
  dataset_path := "corpus"; dataset_subset := "en-en";
  dataset_cache_dir := "cache";
  max_train_set_size := None; val_size_rate := None; seed := 42;
  src_lang := "en"; target_lang := "en"; seq_length := 6;
  train_batch_size := 2; eval_batch_size := 2;
  checkpoints_dir := "checkpoints"; tokenizer_basename := "tokenizer_";
  data_loaders_basename := "data_loaders.pt";
|}.

Lemma missing_train_split_witness :
  preprocess (small_config (Some 2) (Some 34%nat))
             (<["test" := [pair "a" "c"]]> ∅) []
    = ([], Raise (KeyError "train")).
Proof.
  apply (missing_train_split (small_config (Some 2) (Some 34%nat))
           (<["test" := [pair "a" "c"]]> ∅) []).
  vm_compute. reflexivity.
Defined.

Lemma missing_test_split_witness :
  ∃ e, preprocess (small_config None (Some 34%nat))
                  (<["train" := train_rows]> ∅) [] = ([], Raise e).
Proof.
  apply (missing_test_split (small_config None (Some 34%nat))
           (<["train" := train_rows]> ∅) [] 34%nat).
  - reflexivity.
  - vm_compute. reflexivity.
Defined.

Lemma no_validation_source_witness :
  ∃ e, (preprocess (small_config None None) two_splits []).2 = Raise e.
Proof.
  apply (no_validation_source (small_config None None) two_splits []
           "validation").
  - reflexivity.
  - left. reflexivity.
  - vm_compute. reflexivity.
Defined.

Lemma token_ids_unique_witness :
  (tokenize train_rows "en" (small_config None None) 2 []).2 = Ok en_tokenizer ∧
  (∀ w1 w2 i, token_to_id en_tokenizer w1 = Some i ->
              token_to_id en_tokenizer w2 = Some i -> w1 = w2) ∧
  (∀ w i, token_to_id en_tokenizer w = Some i -> (i < vocab_size)%nat) ∧
  unk_token en_tokenizer = UNK_TOKEN.
Proof.
  split; [vm_compute; reflexivity|].
  apply (token_ids_unique train_rows "en" (small_config None None) 2 []
           (tokenize train_rows "en" (small_config None None) 2 []).1
           en_tokenizer).
  vm_compute. reflexivity.
Defined.

Lemma returned_run_witness :
  ∃ t1 t2 loaders,
    (preprocess (small_config None None) three_splits []).1
      = [Mkdir "checkpoints";
         SaveTokenizer (path_div "checkpoints" "tokenizer_en") t1;
         Mkdir "checkpoints";
         SaveTokenizer (path_div "checkpoints" "tokenizer_vi") t2;
         Mkdir "checkpoints";
         TorchSave (path_div "checkpoints" "data_loaders.pt") loaders] ∧
    dom loaders = {["train"; "validation"; "test"]}.
Proof.
  destruct (returned_run (small_config None None) three_splits []
              (preprocess (small_config None None) three_splits []).1)
    as (n1 & t1 & n2 & t2 & loaders & Hn1 & Hn2 & Hfs & Hdom & _);
    [vm_compute; reflexivity|].
  vm_compute in Hn1, Hn2. injection Hn1 as <-. injection Hn2 as <-.
  exists t1, t2, loaders. split; [exact Hfs|exact Hdom].
Defined.

Lemma saved_pairs_fit_witness :
  ∃ loaders,
    last (preprocess (small_config None None) three_splits []).1
      = Some (TorchSave (path_div "checkpoints" "data_loaders.pt") loaders) ∧
    ∀ name dl, loaders !! name = Some dl ->
      Forall (λ row, ∃ s t, row !! "en" = Some s ∧ row !! "vi" = Some t)
             (bd_rows (dl_dataset dl)).
Proof.
  destruct (saved_pairs_fit (small_config None None) three_splits []
              (preprocess (small_config None None) three_splits []).1)
    as (raw & p & t1 & p' & t2 & loaders & _ & _ & Hlast & Hfit);
    [vm_compute; reflexivity|].
  exists loaders. split; [exact Hlast|].
  intros name dl Hdl. destruct (Hfit name dl Hdl) as (rows & _ & _ & Hall).
  eapply Forall_impl; [exact Hall|].
  intros row (s & t & Hs & Ht & _). exists s, t. split; [exact Hs|exact Ht].
Defined.

Lemma same_language_one_tokenizer_witness :
  ∃ p t,
    saved_tokenizers (preprocess one_language_config three_splits []).1
      = [(p, t); (p, t)].
Proof.
  apply (same_language_one_tokenizer one_language_config three_splits []
           (preprocess one_language_config three_splits []).1).
  - reflexivity.
  - vm_compute. reflexivity.
Defined.

Lemma derive_validation_reads_train_and_test_witness :
  derive_validation (small_config None (Some 34%nat)) three_splits
    = derive_validation (small_config None (Some 34%nat)) two_splits.
Proof.
  apply (derive_validation_reads_train_and_test
           (small_config None (Some 34%nat)) three_splits two_splits 34%nat).
  - reflexivity.
  - vm_compute. reflexivity.
  - vm_compute. reflexivity.
Defined.


End PreprocessMore.
